(** * Secure Media Vault: the GraphQL resolvers of [src/graphql/resolvers.ts]

    A shallow embedding of the resolvers and of the collaborators they
    call (relational store, object store, user directory), followed by
    the properties of the upload / finalize / share / delete protocol.

    Conventions of the embedding.
    - A JavaScript string is the list of its UTF-16 code units.
    - A JavaScript number that the API types as an integer is a [Z].
    - A timestamp (a [Date], a [timestamptz] column, the ISO text that
      travels between the two) is the number of milliseconds since the
      epoch, a [Z].
    - An [async] resolver is a function from the state of the collaborators
      to an outcome (a value or a thrown GraphQL error) and a new state.
    - Built-ins of the JavaScript engine and of the platform whose tables
      are not part of the repository (Unicode normalisation and case
      mapping, SHA-256, Postgres [ILIKE], URL signing) are section
      variables. *)

From Stdlib Require Import ZArith List String Ascii Bool Lia DecimalString.
From Stdlib Require Import Sorted.
Import ListNotations.
Open Scope Z_scope.

(* ------------------------------------------------------------------ *)
(** ** JavaScript strings *)

Definition jsstring := list Z.

Module JS.

(** A string literal of the source, as code units. *)
Definition str (s : string) : jsstring :=
  map (fun a => Z.of_nat (nat_of_ascii a)) (list_ascii_of_string s).

(** [a === b] on strings. *)
Fixpoint eqb (a b : jsstring) : bool :=
  match a, b with
  | [], [] => true
  | x :: a', y :: b' => (x =? y) && eqb a' b'
  | _, _ => false
  end.

(** [s.startsWith(p)] *)
Fixpoint startsWith (s p : jsstring) : bool :=
  match p, s with
  | [], _ => true
  | c :: p', d :: s' => (c =? d) && startsWith s' p'
  | _ :: _, [] => false
  end.

(** [s.slice(0, n)] for a non-negative literal [n]. *)
Definition slice0 (n : nat) (s : jsstring) : jsstring := firstn n s.

(** The white space and line terminators that [String.prototype.trim]
    removes (ECMA-262, WhiteSpace and LineTerminator). *)
Definition isWhiteSpace (c : Z) : bool :=
  ((9 <=? c) && (c <=? 13)) || (c =? 32) || (c =? 160) || (c =? 5760)
  || ((8192 <=? c) && (c <=? 8202)) || (c =? 8232) || (c =? 8233)
  || (c =? 8239) || (c =? 8287) || (c =? 12288) || (c =? 65279).

Fixpoint trimStart (s : jsstring) : jsstring :=
  match s with
  | c :: s' => if isWhiteSpace c then trimStart s' else s
  | [] => []
  end.

Definition trim (s : jsstring) : jsstring :=
  rev (trimStart (rev (trimStart s))).

(** [String(n)] and [`${n}`] for an integer [n]. *)
Definition ofZ (n : Z) : jsstring :=
  str (NilZero.string_of_int (Z.to_int n)).

(** [s.padStart(n, c)] with a one-character filler. *)
Definition padStart (n : nat) (c : Z) (s : jsstring) : jsstring :=
  repeat c (n - List.length s) ++ s.

(** Truthiness of a string: the empty string is falsy. *)
Definition truthy (s : jsstring) : bool :=
  match s with
  | [] => false
  | _ :: _ => true
  end.

End JS.

(* ------------------------------------------------------------------ *)
(** ** Upload policy: [isMimeAllowed], [safeFilename] *)

Definition ALLOWED_MIME_PREFIXES : list jsstring :=
  [JS.str "image/"; JS.str "video/"; JS.str "application/pdf"].

Definition MAX_SIZE_BYTES : Z := 30 * 1024 * 1024.

Definition isMimeAllowed (mime : jsstring) : bool :=
  if JS.eqb mime (JS.str "application/pdf") then true
  else existsb (fun p => JS.startsWith mime p) ALLOWED_MIME_PREFIXES.

(** [filename.replace(/[/\\]/g, "_")]: every solidus (U+002F) and reverse
    solidus (U+005C) becomes a low line (U+005F). *)
Definition replaceSeparators (filename : jsstring) : jsstring :=
  map (fun c => if (c =? 47) || (c =? 92) then 95 else c) filename.

Section SafeFilename.

(** [String.prototype.normalize("NFKC")]. *)
Variable normalizeNFKC : jsstring -> jsstring.

Definition safeFilename (filename : jsstring) : jsstring :=
  let base := normalizeNFKC (replaceSeparators filename) in
  JS.slice0 200 base.

End SafeFilename.

(* ------------------------------------------------------------------ *)
(** ** Data model: the three tables, the user directory, the bucket *)

Inductive Status := uploading | ready | corrupt.

Definition Status_eqb (a b : Status) : bool :=
  match a, b with
  | uploading, uploading | ready, ready | corrupt, corrupt => true
  | _, _ => false
  end.

Module Asset.

Record row := mk {
  id : jsstring;
  owner_id : jsstring;
  filename : jsstring;
  mime : jsstring;
  size : Z;
  storage_path : jsstring;
  sha256 : option jsstring;
  status : Status;
  version : Z;
  created_at : Z;
  updated_at : Z
}.

Definition with_status (s : Status) (r : row) : row :=
  mk (id r) (owner_id r) (filename r) (mime r) (size r) (storage_path r)
     (sha256 r) s (version r) (created_at r) (updated_at r).

Definition with_sha256 (h : option jsstring) (r : row) : row :=
  mk (id r) (owner_id r) (filename r) (mime r) (size r) (storage_path r)
     h (status r) (version r) (created_at r) (updated_at r).

Definition with_version (v : Z) (r : row) : row :=
  mk (id r) (owner_id r) (filename r) (mime r) (size r) (storage_path r)
     (sha256 r) (status r) v (created_at r) (updated_at r).

Definition with_updated_at (t : Z) (r : row) : row :=
  mk (id r) (owner_id r) (filename r) (mime r) (size r) (storage_path r)
     (sha256 r) (status r) (version r) (created_at r) t.

End Asset.

Module Ticket.

Record row := mk {
  asset_id : jsstring;
  user_id : jsstring;
  nonce : jsstring;
  mime : jsstring;
  size : Z;
  storage_path : jsstring;
  expires_at : Z;
  used : bool
}.

Definition with_used (b : bool) (r : row) : row :=
  mk (asset_id r) (user_id r) (nonce r) (mime r) (size r) (storage_path r)
     (expires_at r) b.

End Ticket.

Module Share.

Record row := mk {
  asset_id : jsstring;
  to_user : jsstring;
  can_download : bool
}.

End Share.

Module User.

(** An entry of [auth.users]; [email] is optional in the admin API. *)
Record row := mk {
  id : jsstring;
  email : option jsstring
}.

End User.

(** Everything the resolvers reach through [supabaseServer]. The client is
    built with the service-role key, so no row is hidden from it. *)
Record World := mkWorld {
  asset : list Asset.row;
  upload_ticket : list Ticket.row;
  asset_share : list Share.row;
  auth_users : list User.row;
  bucket_private : list (jsstring * list Z)
}.

Definition set_asset (l : list Asset.row) (w : World) : World :=
  mkWorld l (upload_ticket w) (asset_share w) (auth_users w) (bucket_private w).

Definition set_upload_ticket (l : list Ticket.row) (w : World) : World :=
  mkWorld (asset w) l (asset_share w) (auth_users w) (bucket_private w).

Definition set_asset_share (l : list Share.row) (w : World) : World :=
  mkWorld (asset w) (upload_ticket w) l (auth_users w) (bucket_private w).

(* ------------------------------------------------------------------ *)
(** ** Requests: context, environment, errors, the resolver monad *)

Record Context := mkContext { userId : option jsstring }.

(** The calls a resolver makes to its collaborators. Any of them can come
    back with an error; which ones do, in a given request, is part of the
    request's environment. *)
Inductive call :=
| ListAssets
| InsertAsset | InsertTicket | SignUpload
| SelectAsset | SelectTicket | DownloadObject | MarkCorrupt
| UpdateAsset | UseTicket
| ListUsers | UpsertShare | DeleteShare | BumpVersion
| DeleteAsset | SignRead.

(** What a request reads from outside the collaborators' state: the clock
    ([new Date()], one reading per request, with its UTC calendar fields),
    the random source ([crypto.randomUUID], [crypto.randomBytes]) and the
    calls that fail. *)
Record Env := mkEnv {
  now : Z;
  utcFullYear : Z;
  utcMonth : Z;
  randomUUID : jsstring;
  randomNonce : jsstring;
  fails : call -> bool
}.

Inductive ErrorCode :=
| UNAUTHENTICATED | NOT_FOUND | FORBIDDEN | VERSION_CONFLICT
| BAD_REQUEST | INTEGRITY_ERROR.

(** [Object.assign(new Error(message), { extensions: { code } })] *)
Record GraphQLError := mkError { message : string; code : ErrorCode }.

Inductive outcome (A : Type) : Type :=
| Ok (a : A)
| Throw (e : GraphQLError).

Arguments Ok {A} a.
Arguments Throw {A} e.

Definition M (A : Type) : Type := World -> outcome A * World.

Definition ret {A} (a : A) : M A := fun w => (Ok a, w).

Definition throw {A} (msg : string) (c : ErrorCode) : M A :=
  fun w => (Throw (mkError msg c), w).

Definition bind {A B} (m : M A) (k : A -> M B) : M B :=
  fun w =>
    match m w with
    | (Ok a, w') => k a w'
    | (Throw e, w') => (Throw e, w')
    end.

Notation "x <- m ;; k" := (bind m (fun x => k))
  (at level 61, m at next level, right associativity).
Notation "m ;;; k" := (bind m (fun _ => k))
  (at level 61, right associativity).

(** Reading and writing the collaborators' state. *)
Definition gets {A} (f : World -> A) : M A := fun w => (Ok (f w), w).

Definition modify (f : World -> World) : M unit := fun w => (Ok tt, f w).

(** [if (!ctx.userId) throw Unauthenticated]; past it, [ctx.userId] is a
    non-empty string. *)
Definition requireUser (ctx : Context) : M jsstring :=
  match userId ctx with
  | Some uid =>
      if JS.truthy uid then ret uid
      else throw "Unauthenticated" UNAUTHENTICATED
  | None => throw "Unauthenticated" UNAUTHENTICATED
  end.

(* ------------------------------------------------------------------ *)
(** ** The collaborators behind [supabaseServer] *)

(** [.single()]: the request is for exactly one row. *)
Definition single {A} (l : list A) : option A :=
  match l with
  | [x] => Some x
  | _ => None
  end.

Definition asset_has_id (i : jsstring) (r : Asset.row) : bool :=
  JS.eqb (Asset.id r) i.

Definition ticket_of_asset (i : jsstring) (r : Ticket.row) : bool :=
  JS.eqb (Ticket.asset_id r) i.

Definition share_has_key (i u : jsstring) (r : Share.row) : bool :=
  JS.eqb (Share.asset_id r) i && JS.eqb (Share.to_user r) u.

(** [from("asset").select("*").eq("id", i).single()] *)
Definition select_asset (env : Env) (i : jsstring) : M (option Asset.row) :=
  gets (fun w =>
    if fails env SelectAsset then None
    else single (filter (asset_has_id i) (asset w))).

(** [from("upload_ticket").select("*").eq("asset_id", i).single()] *)
Definition select_ticket (env : Env) (i : jsstring) : M (option Ticket.row) :=
  gets (fun w =>
    if fails env SelectTicket then None
    else single (filter (ticket_of_asset i) (upload_ticket w))).

Definition patch_assets (patch : Asset.row -> Asset.row) (i : jsstring)
    (l : list Asset.row) : list Asset.row :=
  map (fun r => if asset_has_id i r then patch r else r) l.

(** [from("asset").update(patch).eq("id", i)], the error not looked at. *)
Definition update_asset (env : Env) (c : call)
    (patch : Asset.row -> Asset.row) (i : jsstring) : M unit :=
  modify (fun w =>
    if fails env c then w
    else set_asset (patch_assets patch i (asset w)) w).

(** [from("asset").update(patch).eq("id", i).select("*").single()]: the
    updated row, or an error (and then no write) when the call fails or
    the rows with this id are not exactly one. *)
Definition update_asset_single (env : Env) (c : call)
    (patch : Asset.row -> Asset.row) (i : jsstring) : M (option Asset.row) :=
  fun w =>
    if fails env c then (Ok None, w)
    else
      match single (filter (asset_has_id i) (asset w)) with
      | Some a =>
          (Ok (Some (patch a)),
           set_asset (patch_assets patch i (asset w)) w)
      | None => (Ok None, w)
      end.

(** Modelled from the spec: the [asset] table's declaration is not in the
    repository. The columns an insert leaves out take their defaults
    ([sha256] is "nullable until verified", [createdAt] and [updatedAt]
    are the time of the insert), and [id] is the "opaque unique
    identifier": a second row with the same [id] is refused. *)
Definition insert_asset (env : Env)
    (id owner_id filename mime : jsstring) (size : Z)
    (storage_path : jsstring) (status : Status) (version : Z) : M bool :=
  fun w =>
    if fails env InsertAsset then (Ok false, w)
    else if existsb (asset_has_id id) (asset w) then (Ok false, w)
    else
      let r := Asset.mk id owner_id filename mime size storage_path None
                        status version (now env) (now env) in
      (Ok true, set_asset (asset w ++ [r]) w).

(** [from("upload_ticket").insert(row)] *)
Definition insert_ticket (env : Env) (r : Ticket.row) : M bool :=
  fun w =>
    if fails env InsertTicket then (Ok false, w)
    else (Ok true, set_upload_ticket (upload_ticket w ++ [r]) w).

(** [from("upload_ticket").update({ used: true }).eq("asset_id", i)], the
    error not looked at. *)
Definition use_ticket (env : Env) (i : jsstring) : M unit :=
  modify (fun w =>
    if fails env UseTicket then w
    else
      set_upload_ticket
        (map (fun t => if ticket_of_asset i t then Ticket.with_used true t
                       else t)
             (upload_ticket w)) w).

(** [from("asset_share").upsert(row, { onConflict: "asset_id,to_user" })]:
    the row with this key is overwritten, or the row is added. *)
Definition upsert_share (env : Env) (r : Share.row) : M bool :=
  fun w =>
    if fails env UpsertShare then (Ok false, w)
    else
      let key := share_has_key (Share.asset_id r) (Share.to_user r) in
      let l := asset_share w in
      (Ok true,
       set_asset_share
         (if existsb key l then map (fun s => if key s then r else s) l
          else l ++ [r])
         w).

(** [from("asset_share").delete().eq("asset_id", i).eq("to_user", u)], the
    error not looked at. *)
Definition delete_share (env : Env) (i u : jsstring) : M unit :=
  modify (fun w =>
    if fails env DeleteShare then w
    else
      set_asset_share
        (filter (fun s => negb (share_has_key i u s)) (asset_share w)) w).

(** [from("asset").delete().eq("id", i)] *)
Definition delete_asset (env : Env) (i : jsstring) : M bool :=
  fun w =>
    if fails env DeleteAsset then (Ok false, w)
    else
      (Ok true,
       set_asset (filter (fun r => negb (asset_has_id i r)) (asset w)) w).

(** [auth.admin.listUsers({ page, perPage })] *)
Definition listUsers (env : Env) (page perPage : nat)
  : M (option (list User.row)) :=
  gets (fun w =>
    if fails env ListUsers then None
    else Some (firstn perPage (skipn ((page - 1) * perPage) (auth_users w)))).

(** The bytes stored at [path], when an object is there. *)
Definition object_at (path : jsstring) (bucket : list (jsstring * list Z))
  : option (list Z) :=
  option_map snd (find (fun o => JS.eqb (fst o) path) bucket).

(** [storage.from("private").download(path)] *)
Definition download (env : Env) (path : jsstring) : M (option (list Z)) :=
  gets (fun w =>
    if fails env DownloadObject then None
    else object_at path (bucket_private w)).

(** [order("created_at", { ascending: false })] *)
Fixpoint insert_desc (r : Asset.row) (l : list Asset.row) : list Asset.row :=
  match l with
  | [] => [r]
  | x :: l' =>
      if Asset.created_at x <? Asset.created_at r then r :: l
      else x :: insert_desc r l'
  end.

Definition order_created_at_desc (l : list Asset.row) : list Asset.row :=
  fold_right insert_desc [] l.

(* ------------------------------------------------------------------ *)
(** ** What the API returns *)

Module Node.

(** The [Asset] object every resolver builds from a row. *)
Record t := mk {
  id : jsstring;
  filename : jsstring;
  mime : jsstring;
  size : Z;
  sha256 : option jsstring;
  status : Status;
  version : Z;
  createdAt : Z;
  updatedAt : Z
}.

End Node.

Definition node_of (r : Asset.row) : Node.t :=
  Node.mk (Asset.id r) (Asset.filename r) (Asset.mime r) (Asset.size r)
          (Asset.sha256 r) (Asset.status r) (Asset.version r)
          (Asset.created_at r) (Asset.updated_at r).

Record Edge := mkEdge { cursor : Z; node : Node.t }.

Record PageInfo := mkPageInfo { endCursor : option Z; hasNextPage : bool }.

Record Connection := mkConnection { edges : list Edge; pageInfo : PageInfo }.

Module UploadUrl.

Record t := mk {
  assetId : jsstring;
  storagePath : jsstring;
  uploadUrl : jsstring;
  expiresAt : Z;
  nonce : jsstring
}.

End UploadUrl.

(* ------------------------------------------------------------------ *)
(** ** The resolvers *)

Section Resolvers.

(** [String.prototype.normalize("NFKC")] *)
Variable normalizeNFKC : jsstring -> jsstring.

(** [String.prototype.toLowerCase] *)
Variable toLowerCase : jsstring -> jsstring.

(** [crypto.createHash("sha256").update(buffer).digest("hex")] *)
Variable sha256_hex : list Z -> jsstring.

(** Postgres [subject ILIKE pattern] *)
Variable ilike : jsstring -> jsstring -> bool.

(** The object store's URL signing: [createSignedUploadUrl(path)] and
    [createSignedUrl(path, seconds)]. *)
Variable signedUploadUrl : jsstring -> jsstring.
Variable signedUrl : jsstring -> Z -> jsstring.

Definition createSignedUploadUrl (env : Env) (path : jsstring)
  : M (option jsstring) :=
  ret (if fails env SignUpload then None else Some (signedUploadUrl path)).

Definition createSignedUrl (env : Env) (path : jsstring) (seconds : Z)
  : M (option jsstring) :=
  ret (if fails env SignRead then None else Some (signedUrl path seconds)).

Definition findUserIdByEmail (env : Env) (email : jsstring)
  : M (option jsstring) :=
  data <- listUsers env 1 200 ;;
  match data with
  | None => ret None
  | Some users =>
      let user :=
        find (fun u =>
                match User.email u with
                | Some e => JS.eqb (toLowerCase e) (toLowerCase email)
                | None => false
                end) users in
      ret (option_map User.id user)
  end.

(** *** Query.myAssets *)

(** [args.first && args.first > 0 && args.first <= 50 ? args.first : 20] *)
Definition page_limit (first : option Z) : Z :=
  match first with
  | Some n => if negb (n =? 0) && (0 <? n) && (n <=? 50) then n else 20
  | None => 20
  end.

(** The two optional filters of the listing: [lt("created_at", after)]
    and [ilike("filename", `%${q.trim()}%`)]. *)
Definition after_filter (after : option Z) (r : Asset.row) : bool :=
  match after with
  | Some t => Asset.created_at r <? t
  | None => true
  end.

Definition q_filter (q : option jsstring) (r : Asset.row) : bool :=
  match q with
  | Some s =>
      if JS.truthy s && (0 <? Z.of_nat (List.length (JS.trim s)))
      then ilike (Asset.filename r) (JS.str "%" ++ JS.trim s ++ JS.str "%")
      else true
  | None => true
  end.

Definition matching_assets (after : option Z) (q : option jsstring)
    (w : World) : list Asset.row :=
  filter (fun r => after_filter after r && q_filter q r) (asset w).

(** The listing query as the store runs it: filter, order, limit. *)
Definition list_assets (env : Env) (limit : Z) (after : option Z)
    (q : option jsstring) : M (option (list Asset.row)) :=
  gets (fun w =>
    if fails env ListAssets then None
    else Some (firstn (Z.to_nat limit)
                 (order_created_at_desc (matching_assets after q w)))).

Definition myAssets (env : Env) (after : option Z) (first : option Z)
    (q : option jsstring) (ctx : Context) : M Connection :=
  _ <- requireUser ctx ;;
  let limit := page_limit first in
  data <- list_assets env (limit + 1) after q ;;
  match data with
  | None => throw "Failed to load assets" BAD_REQUEST
  | Some data =>
      let hasNextPage := limit <? Z.of_nat (List.length data) in
      let slice := if hasNextPage then firstn (Z.to_nat limit) data else data in
      let endCursor :=
        option_map Asset.created_at
                   (nth_error slice (List.length slice - 1)) in
      ret (mkConnection
             (map (fun r => mkEdge (Asset.created_at r) (node_of r)) slice)
             (mkPageInfo endCursor hasNextPage))
  end.

(** *** Mutation.createUploadUrl *)

Definition createUploadUrl (env : Env) (filename mime : jsstring) (size : Z)
    (ctx : Context) : M UploadUrl.t :=
  uid <- requireUser ctx ;;
  if negb (isMimeAllowed mime) then throw "MIME not allowed" BAD_REQUEST
  else if (size <=? 0) || (MAX_SIZE_BYTES <? size)
  then throw "Invalid size" BAD_REQUEST
  else
    let assetId := randomUUID env in
    let nonce := randomNonce env in
    let expiresAt := now env + 5 * 60 * 1000 in
    let safeName := safeFilename normalizeNFKC filename in
    let storagePath :=
      JS.str "private/" ++ uid ++ JS.str "/" ++ JS.ofZ (utcFullYear env)
      ++ JS.str "/" ++ JS.padStart 2 48 (JS.ofZ (utcMonth env + 1))
      ++ JS.str "/" ++ assetId ++ JS.str "-" ++ safeName in
    inserted <- insert_asset env assetId uid safeName mime size storagePath
                             uploading 1 ;;
    if negb inserted then throw "Failed to create asset" BAD_REQUEST
    else
      ticketed <- insert_ticket env
                    (Ticket.mk assetId uid nonce mime size storagePath
                               expiresAt false) ;;
      if negb ticketed then throw "Failed to create ticket" BAD_REQUEST
      else
        signed <- createSignedUploadUrl env storagePath ;;
        match signed with
        | None => throw "Failed to create uploadUrl" BAD_REQUEST
        | Some url =>
            ret (UploadUrl.mk assetId storagePath url expiresAt nonce)
        end.

(** *** Mutation.finalizeUpload *)

(** The patch of step 4:
    [{ sha256: serverHash, status, version: version + 1, updated_at }]. *)
Definition finalize_patch (serverHash : jsstring) (status : Status)
    (version : Z) (t : Z) (r : Asset.row) : Asset.row :=
  Asset.with_updated_at t
    (Asset.with_version (version + 1)
       (Asset.with_status status
          (Asset.with_sha256 (Some serverHash) r))).

Definition finalizeUpload (env : Env) (assetId clientSha256 : jsstring)
    (version : Z) (ctx : Context) : M Node.t :=
  uid <- requireUser ctx ;;
  found <- select_asset env assetId ;;
  match found with
  | None => throw "Asset not found" NOT_FOUND
  | Some asset =>
      if negb (JS.eqb (Asset.owner_id asset) uid)
      then throw "Forbidden" FORBIDDEN
      else if negb (Asset.version asset =? version)
      then throw "Version conflict" VERSION_CONFLICT
      else
        issued <- select_ticket env assetId ;;
        match issued with
        | None => throw "Ticket not found" NOT_FOUND
        | Some ticket =>
            if negb (JS.eqb (Ticket.user_id ticket) uid)
            then throw "Forbidden" FORBIDDEN
            else if Ticket.used ticket
            then ret (node_of asset)
            else if Ticket.expires_at ticket <? now env
            then throw "Ticket expired" BAD_REQUEST
            else
              fileData <- download env (Ticket.storage_path ticket) ;;
              match fileData with
              | None =>
                  update_asset env MarkCorrupt (Asset.with_status corrupt)
                               assetId ;;;
                  throw "Object missing" INTEGRITY_ERROR
              | Some buffer =>
                  let serverHash := sha256_hex buffer in
                  let status :=
                    if JS.eqb serverHash clientSha256 then ready
                    else corrupt in
                  updated <- update_asset_single env UpdateAsset
                               (finalize_patch serverHash status version
                                               (now env))
                               assetId ;;
                  match updated with
                  | None => throw "Failed to update asset" BAD_REQUEST
                  | Some updated =>
                      use_ticket env assetId ;;;
                      if negb (Status_eqb status ready)
                      then throw "Hash mismatch" INTEGRITY_ERROR
                      else ret (node_of updated)
                  end
              end
        end
  end.

(** *** Mutation.shareAsset, Mutation.revokeShare *)

(** The patch of the version bump:
    [{ version: asset.version + 1, updated_at }]. *)
Definition bump_patch (version : Z) (t : Z) (r : Asset.row) : Asset.row :=
  Asset.with_updated_at t (Asset.with_version (version + 1) r).

Definition shareAsset (env : Env) (assetId toEmail : jsstring)
    (canDownload : bool) (version : Z) (ctx : Context) : M Node.t :=
  uid <- requireUser ctx ;;
  found <- select_asset env assetId ;;
  match found with
  | None => throw "Asset not found" NOT_FOUND
  | Some asset =>
      if negb (JS.eqb (Asset.owner_id asset) uid)
      then throw "Forbidden" FORBIDDEN
      else if negb (Asset.version asset =? version)
      then throw "Version conflict" VERSION_CONFLICT
      else
        toUserId <- findUserIdByEmail env toEmail ;;
        match toUserId with
        | None | Some [] => throw "User not found" NOT_FOUND
        | Some toUserId =>
            if JS.eqb toUserId uid then ret (node_of asset)
            else
              shared <- upsert_share env
                          (Share.mk assetId toUserId canDownload) ;;
              if negb shared then throw "Failed to share asset" BAD_REQUEST
              else
                updated <- update_asset_single env BumpVersion
                             (bump_patch (Asset.version asset) (now env))
                             assetId ;;
                match updated with
                | None => throw "Failed to update asset version" BAD_REQUEST
                | Some updated => ret (node_of updated)
                end
        end
  end.

Definition revokeShare (env : Env) (assetId toEmail : jsstring)
    (version : Z) (ctx : Context) : M Node.t :=
  uid <- requireUser ctx ;;
  found <- select_asset env assetId ;;
  match found with
  | None => throw "Asset not found" NOT_FOUND
  | Some asset =>
      if negb (JS.eqb (Asset.owner_id asset) uid)
      then throw "Forbidden" FORBIDDEN
      else if negb (Asset.version asset =? version)
      then throw "Version conflict" VERSION_CONFLICT
      else
        toUserId <- findUserIdByEmail env toEmail ;;
        match toUserId with
        | None | Some [] => ret tt
        | Some toUserId => delete_share env assetId toUserId
        end ;;;
        updated <- update_asset_single env BumpVersion
                     (bump_patch (Asset.version asset) (now env))
                     assetId ;;
        match updated with
        | None => throw "Failed to update asset version" BAD_REQUEST
        | Some updated => ret (node_of updated)
        end
  end.

(** *** Mutation.deleteAsset *)

Definition deleteAsset (env : Env) (assetId : jsstring) (version : Z)
    (ctx : Context) : M bool :=
  uid <- requireUser ctx ;;
  found <- select_asset env assetId ;;
  match found with
  | None => throw "Asset not found" NOT_FOUND
  | Some asset =>
      if negb (JS.eqb (Asset.owner_id asset) uid)
      then throw "Forbidden" FORBIDDEN
      else if negb (Asset.version asset =? version)
      then throw "Version conflict" VERSION_CONFLICT
      else
        deleted <- delete_asset env assetId ;;
        if negb deleted then throw "Failed to delete asset" BAD_REQUEST
        else ret true
  end.

(** *** Mutation.getDownloadUrl *)

Definition getDownloadUrl (env : Env) (assetId : jsstring) (ctx : Context)
  : M jsstring :=
  uid <- requireUser ctx ;;
  found <- select_asset env assetId ;;
  match found with
  | None => throw "Asset not found" NOT_FOUND
  | Some asset =>
      if negb (JS.eqb (Asset.owner_id asset) uid)
      then throw "Forbidden" FORBIDDEN
      else
        signed <- createSignedUrl env (Asset.storage_path asset) 120 ;;
        match signed with
        | None => throw "Failed to create download URL" BAD_REQUEST
        | Some url => ret url
        end
  end.

End Resolvers.

(* ------------------------------------------------------------------ *)
(** ** The request context ([createContext]) *)

(** The [sub] field of a decoded token, as [typeof decoded.sub] sees it. *)
Inductive JwtClaim :=
| ClaimString (s : jsstring)
| ClaimOther.

Record JwtPayload := mkPayload { sub : JwtClaim }.

(** Of the request, [createContext] reads one header:
    [request.headers.get("authorization")], [null] when it is absent. *)
Record Request := mkRequest { authorization : option jsstring }.

Section CreateContext.

(** [jwt.verify(token, secret)]: the decoded payload, or [None] when it
    throws (bad signature, expired or malformed token). *)
Variable jwt_verify : jsstring -> jsstring -> option JwtPayload.

(** [process.env.SUPABASE_JWT_SECRET] *)
Variable SUPABASE_JWT_SECRET : jsstring.

Definition createContext (request : Request) : Context :=
  let authHeader :=
    match authorization request with
    | Some h => h
    | None => []
    end in
  let token :=
    if JS.startsWith authHeader (JS.str "Bearer ") then skipn 7 authHeader
    else [] in
  if negb (JS.truthy token) then mkContext None
  else
    match jwt_verify token SUPABASE_JWT_SECRET with
    | Some decoded =>
        mkContext match sub decoded with
                  | ClaimString s => Some s
                  | ClaimOther => None
                  end
    | None => mkContext None
    end.

End CreateContext.

(* ------------------------------------------------------------------ *)
(** ** Vocabulary of the statements *)

(** The caller is authenticated as [uid]. *)
Definition authenticated (ctx : Context) (uid : jsstring) : Prop :=
  userId ctx = Some uid /\ JS.truthy uid = true.

(** The asset [i] exists and the resolver's lookup returns it. *)
Definition loads_asset (env : Env) (w : World) (i : jsstring)
    (a : Asset.row) : Prop :=
  fails env SelectAsset = false /\
  single (filter (asset_has_id i) (asset w)) = Some a.

(** The asset [i] has one upload ticket and the lookup returns it. *)
Definition loads_ticket (env : Env) (w : World) (i : jsstring)
    (t : Ticket.row) : Prop :=
  fails env SelectTicket = false /\
  single (filter (ticket_of_asset i) (upload_ticket w)) = Some t.

(** The same state with the status of asset [i] replaced by [s]. *)
Definition with_asset_status (s : Status) (i : jsstring) (w : World)
  : World :=
  set_asset (patch_assets (Asset.with_status s) i (asset w)) w.

(** An image, video or PDF type, as the policy reads a MIME type: by its
    prefix. *)
Definition media_type (mime : jsstring) : Prop :=
  JS.startsWith mime (JS.str "image/") = true \/
  JS.startsWith mime (JS.str "video/") = true \/
  JS.startsWith mime (JS.str "application/pdf") = true.

(** The errors the statements name. *)
Definition VersionConflict : GraphQLError :=
  mkError "Version conflict" VERSION_CONFLICT.

Definition TicketExpired : GraphQLError :=
  mkError "Ticket expired" BAD_REQUEST.

Definition HashMismatch : GraphQLError :=
  mkError "Hash mismatch" INTEGRITY_ERROR.

Definition ObjectMissing : GraphQLError :=
  mkError "Object missing" INTEGRITY_ERROR.

Definition Unauthenticated : GraphQLError :=
  mkError "Unauthenticated" UNAUTHENTICATED.

Definition AssetNotFound : GraphQLError :=
  mkError "Asset not found" NOT_FOUND.

Definition Forbidden : GraphQLError := mkError "Forbidden" FORBIDDEN.

(** No usable caller identity: [ctx.userId] is [null] or empty. *)
Definition anonymous (ctx : Context) : Prop :=
  userId ctx = None \/ userId ctx = Some [].

(** The codes of the refusals that come before any work is done. *)
Definition is_refusal (c : ErrorCode) : bool :=
  match c with
  | UNAUTHENTICATED | NOT_FOUND | FORBIDDEN | VERSION_CONFLICT => true
  | BAD_REQUEST | INTEGRITY_ERROR => false
  end.

(** How a stored row may differ after a mutation that keeps it: same
    identity, owner, name, type, size, path and creation time; the version
    the same or one more. *)
Definition row_moves_on (r r' : Asset.row) : Prop :=
  Asset.id r' = Asset.id r /\
  Asset.owner_id r' = Asset.owner_id r /\
  Asset.filename r' = Asset.filename r /\
  Asset.mime r' = Asset.mime r /\
  Asset.size r' = Asset.size r /\
  Asset.storage_path r' = Asset.storage_path r /\
  Asset.created_at r' = Asset.created_at r /\
  Asset.version r <= Asset.version r' <= Asset.version r + 1.

(** A resolver whose refusals leave the state as it was. *)
Definition refusals_keep_state {A} (m : M A) : Prop :=
  forall (w w' : World) (e : GraphQLError),
    m w = (Throw e, w') -> is_refusal (code e) = true -> w' = w.

(** A resolver that writes nothing, whatever it returns. *)
Definition never_writes {A} (m : M A) : Prop :=
  forall w : World, snd (m w) = w.

(** The share rows of the pair (asset [i], user [u]), and the others. *)
Definition shares_for (i u : jsstring) (l : list Share.row)
  : list Share.row :=
  filter (share_has_key i u) l.

Definition other_shares (i u : jsstring) (l : list Share.row)
  : list Share.row :=
  filter (fun s => negb (share_has_key i u s)) l.

(** A directory entry whose e-mail is [email], letter case apart. *)
Definition email_matches (toLowerCase : jsstring -> jsstring)
    (email : jsstring) (u : User.row) : Prop :=
  exists e, User.email u = Some e /\ toLowerCase e = toLowerCase email.

(** Newest first. *)
Definition newer_first (e1 e2 : Edge) : Prop := cursor e2 <= cursor e1.

(* ------------------------------------------------------------------ *)
(** ** A concrete platform and a concrete state, for the examples *)

Module Sample.

(** The part of NFKC that folds the full-width forms U+FF01..U+FF5E onto
    ASCII (UnicodeData.txt gives each of them the compatibility mapping
    [<wide>] to the code point 0xFEE0 below); every other code unit is
    left alone. *)
Definition fold_fullwidth (s : jsstring) : jsstring :=
  map (fun c => if (65281 <=? c) && (c <=? 65374) then c - 65248 else c) s.

(** Lower-casing of the ASCII letters. *)
Definition ascii_lower (s : jsstring) : jsstring :=
  map (fun c => if (65 <=? c) && (c <=? 90) then c + 32 else c) s.

(** A small checksum printed in decimal; it stands where SHA-256 stands. *)
Definition digest (buffer : list Z) : jsstring :=
  JS.ofZ (fold_left (fun h b => (h * 31 + b) mod 65521) buffer 7).

Fixpoint contains (s p : jsstring) : bool :=
  JS.startsWith s p ||
  match s with
  | [] => false
  | _ :: s' => contains s' p
  end.

(** [ILIKE] for patterns whose only wildcards are the [%] signs. *)
Definition ilike (subject pattern : jsstring) : bool :=
  contains (ascii_lower subject)
           (ascii_lower (filter (fun c => negb (c =? 37)) pattern)).

Definition signedUploadUrl (path : jsstring) : jsstring :=
  JS.str "https://vault.example/upload/" ++ path ++ JS.str "?token=w".

Definition signedUrl (path : jsstring) (seconds : Z) : jsstring :=
  JS.str "https://vault.example/read/" ++ path ++ JS.str "?ttl="
  ++ JS.ofZ seconds.

Definition alice : jsstring := JS.str "u-alice".
Definition bob : jsstring := JS.str "u-bob".

Definition cat_path : jsstring :=
  JS.str "private/u-alice/2026/01/a1-cat.png".

Definition cat_bytes : list Z := [137; 80; 78; 71].

(** Alice asked for an upload URL at time 1000 and has not finalized. *)
Definition cat : Asset.row :=
  Asset.mk (JS.str "a1") alice (JS.str "cat.png") (JS.str "image/png") 4
           cat_path None uploading 1 1000 1000.

Definition cat_ticket : Ticket.row :=
  Ticket.mk (JS.str "a1") alice (JS.str "n0") (JS.str "image/png") 4
            cat_path 301000 false.

Definition directory : list User.row :=
  [User.mk alice (Some (JS.str "Alice@Example.com"));
   User.mk bob (Some (JS.str "bob@example.com"))].

(** The object has been uploaded. *)
Definition uploaded : World :=
  mkWorld [cat] [cat_ticket] [] directory [(cat_path, cat_bytes)].

(** The object never reached the bucket. *)
Definition missing : World :=
  mkWorld [cat] [cat_ticket] [] directory [].

(** The same state after Alice's finalize at time 2000 with the right
    hash. *)
Definition cat_ready : Asset.row :=
  finalize_patch (digest cat_bytes) ready 1 2000 cat.

Definition finalized : World :=
  mkWorld [cat_ready] [Ticket.with_used true cat_ticket] [] directory
          [(cat_path, cat_bytes)].

Definition no_failure : call -> bool := fun _ => false.

Definition at_time (t : Z) : Env :=
  mkEnv t 2026 0 (JS.str "a2") (JS.str "n1") no_failure.

(** A request during which the bucket cannot be read and no row can be
    written. *)
Definition read_only (c : call) : bool :=
  match c with
  | DownloadObject | MarkCorrupt | UpdateAsset | UseTicket => true
  | _ => false
  end.

Definition read_only_at (t : Z) : Env :=
  mkEnv t 2026 0 (JS.str "a2") (JS.str "n1") read_only.

Definition as_alice : Context := mkContext (Some alice).

(** [n] rows owned by Alice, created at times 1 .. n. *)
Definition many (n : nat) : World :=
  mkWorld
    (map (fun k => Asset.mk (JS.ofZ (Z.of_nat k)) alice (JS.str "f")
                            (JS.str "image/png") 1 (JS.str "p") None ready 1
                            (Z.of_nat k) (Z.of_nat k))
         (seq 1 n))
    [] [] directory [].

Definition cat_id : jsstring := JS.str "a1".

Definition as_bob : Context := mkContext (Some bob).

Definition nobody : Context := mkContext None.

(** Bob has been given the cat, with the download permission; the second
    share row is about another asset. *)
Definition shared : World :=
  mkWorld [cat] [cat_ticket]
          [Share.mk cat_id bob true; Share.mk (JS.str "a9") bob false]
          directory [(cat_path, cat_bytes)].

(** A finalize has failed on the missing object, and the object has been
    uploaded since. *)
Definition reuploaded : World :=
  mkWorld [Asset.with_status corrupt cat] [cat_ticket] [] directory
          [(cat_path, cat_bytes)].

(** A request during which the ticket table refuses inserts. *)
Definition no_ticket_insert (c : call) : bool :=
  match c with
  | InsertTicket => true
  | _ => false
  end.

Definition no_ticket_insert_at (t : Z) : Env :=
  mkEnv t 2026 0 (JS.str "a2") (JS.str "n1") no_ticket_insert.

(** A verifier that knows one token, Alice's. *)
Definition verifier (token secret : jsstring) : option JwtPayload :=
  if JS.eqb token (JS.str "t0k") && JS.eqb secret (JS.str "s3cret")
  then Some (mkPayload (ClaimString alice))
  else None.

End Sample.

(* ------------------------------------------------------------------ *)
(** ** Strings and lists *)

Lemma jsstring_eqb_eq (a b : jsstring) : JS.eqb a b = true <-> a = b.
Proof.
  revert b; induction a as [|x a IH]; intros [|y b]; simpl;
    try (split; [discriminate | congruence]); try tauto.
  rewrite andb_true_iff, Z.eqb_eq, IH. split.
  - intros [-> ->]; reflexivity.
  - intros E; injection E; auto.
Qed.

Lemma jsstring_eqb_refl (a : jsstring) : JS.eqb a a = true.
Proof. apply jsstring_eqb_eq; reflexivity. Qed.

Lemma single_inv {A} (l : list A) (x : A) : single l = Some x -> l = [x].
Proof.
  destruct l as [|y [|z l]]; simpl; intros E; try discriminate.
  injection E as ->; reflexivity.
Qed.

Lemma filter_map_stable {A} (p : A -> bool) (f : A -> A) (l : list A) :
  (forall x, p (f x) = p x) -> filter p (map f l) = map f (filter p l).
Proof.
  intros Hp; induction l as [|x l IH]; simpl; [reflexivity|].
  rewrite Hp; destruct (p x); simpl; rewrite IH; reflexivity.
Qed.

Lemma order_created_at_desc_length (l : list Asset.row) :
  List.length (order_created_at_desc l) = List.length l.
Proof.
  assert (Hins : forall r m,
             List.length (insert_desc r m) = S (List.length m)).
  { intros r m; induction m as [|x m IH]; simpl; [reflexivity|].
    destruct (Asset.created_at x <? Asset.created_at r); simpl;
      [reflexivity | rewrite IH; reflexivity]. }
  induction l as [|x l IH]; simpl; [reflexivity|].
  rewrite Hins, IH; reflexivity.
Qed.

(* ------------------------------------------------------------------ *)
(** ** The monad and the lookups *)

Lemma bind_ok {A B} (m : M A) (k : A -> M B) (w w' : World) (a : A) :
  m w = (Ok a, w') -> bind m k w = k a w'.
Proof. unfold bind; intros ->; reflexivity. Qed.

Lemma bind_throw {A B} (m : M A) (k : A -> M B) (w w' : World)
    (e : GraphQLError) :
  m w = (Throw e, w') -> bind m k w = (Throw e, w').
Proof. unfold bind; intros ->; reflexivity. Qed.

Lemma requireUser_ok (ctx : Context) (uid : jsstring) (w : World) :
  authenticated ctx uid -> requireUser ctx w = (Ok uid, w).
Proof.
  intros [Hu Ht]; unfold requireUser; rewrite Hu, Ht; reflexivity.
Qed.

Lemma select_asset_ok (env : Env) (w : World) (i : jsstring)
    (a : Asset.row) :
  loads_asset env w i a -> select_asset env i w = (Ok (Some a), w).
Proof.
  intros [Hf Hs]; unfold select_asset, gets; rewrite Hf, Hs; reflexivity.
Qed.

Lemma select_ticket_ok (env : Env) (w : World) (i : jsstring)
    (t : Ticket.row) :
  loads_ticket env w i t -> select_ticket env i w = (Ok (Some t), w).
Proof.
  intros [Hf Hs]; unfold select_ticket, gets; rewrite Hf, Hs; reflexivity.
Qed.

Lemma loads_asset_id (env : Env) (w : World) (i : jsstring)
    (a : Asset.row) :
  loads_asset env w i a -> asset_has_id i a = true.
Proof.
  intros [_ Hs]. apply single_inv in Hs.
  assert (Hin : In a (filter (asset_has_id i) (asset w)))
    by (rewrite Hs; left; reflexivity).
  apply filter_In in Hin; tauto.
Qed.

Lemma loads_ticket_key (env : Env) (w : World) (i : jsstring)
    (t : Ticket.row) :
  loads_ticket env w i t -> ticket_of_asset i t = true.
Proof.
  intros [_ Hs]. apply single_inv in Hs.
  assert (Hin : In t (filter (ticket_of_asset i) (upload_ticket w)))
    by (rewrite Hs; left; reflexivity).
  apply filter_In in Hin; tauto.
Qed.

(** A patch that keeps [id] leaves exactly the patched row under that id. *)
Lemma single_patch_assets (patch : Asset.row -> Asset.row) (i : jsstring)
    (l : list Asset.row) (a : Asset.row) :
  (forall r, Asset.id (patch r) = Asset.id r) ->
  single (filter (asset_has_id i) l) = Some a ->
  single (filter (asset_has_id i) (patch_assets patch i l)) = Some (patch a).
Proof.
  intros Hid Hs. unfold patch_assets.
  rewrite filter_map_stable.
  - assert (Ha : asset_has_id i a = true).
    { apply single_inv in Hs.
      assert (Hin : In a (filter (asset_has_id i) l))
        by (rewrite Hs; left; reflexivity).
      apply filter_In in Hin; tauto. }
    rewrite (single_inv _ _ Hs); simpl; rewrite Ha; reflexivity.
  - intros r; destruct (asset_has_id i r) eqn:E; [|exact E].
    unfold asset_has_id in *; rewrite Hid; exact E.
Qed.

Lemma single_use_ticket (i : jsstring) (l : list Ticket.row)
    (t : Ticket.row) :
  single (filter (ticket_of_asset i) l) = Some t ->
  single (filter (ticket_of_asset i)
            (map (fun t => if ticket_of_asset i t
                           then Ticket.with_used true t else t) l))
  = Some (Ticket.with_used true t).
Proof.
  intros Hs. rewrite filter_map_stable.
  - assert (Ht : ticket_of_asset i t = true).
    { apply single_inv in Hs.
      assert (Hin : In t (filter (ticket_of_asset i) l))
        by (rewrite Hs; left; reflexivity).
      apply filter_In in Hin; tauto. }
    rewrite (single_inv _ _ Hs); simpl; rewrite Ht; reflexivity.
  - intros r; destruct (ticket_of_asset i r) eqn:E; [|exact E].
    exact E.
Qed.

Lemma isMimeAllowed_media_type (mime : jsstring) :
  isMimeAllowed mime = true <-> media_type mime.
Proof.
  unfold isMimeAllowed, media_type, ALLOWED_MIME_PREFIXES.
  destruct (JS.eqb mime (JS.str "application/pdf")) eqn:E.
  - apply jsstring_eqb_eq in E; subst mime.
    split; [intros _; right; right |]; reflexivity.
  - cbn [existsb]. rewrite !orb_true_iff. intuition discriminate.
Qed.

Lemma page_limit_range (first : option Z) : 1 <= page_limit first <= 50.
Proof.
  unfold page_limit; destruct first as [n|]; [|lia].
  destruct (n =? 0) eqn:E0, (0 <? n) eqn:E1, (n <=? 50) eqn:E2;
    cbn [negb andb]; lia.
Qed.

Lemma page_limit_in_range (n : Z) : 1 <= n <= 50 -> page_limit (Some n) = n.
Proof.
  intros H; unfold page_limit.
  replace (n =? 0) with false by (symmetry; apply Z.eqb_neq; lia).
  replace (0 <? n) with true by (symmetry; apply Z.ltb_lt; lia).
  replace (n <=? 50) with true by (symmetry; apply Z.leb_le; lia).
  reflexivity.
Qed.

Lemma page_limit_out_of_range (n : Z) :
  n < 1 \/ 50 < n -> page_limit (Some n) = 20.
Proof.
  intros H; unfold page_limit.
  destruct (n =? 0) eqn:E0, (0 <? n) eqn:E1, (n <=? 50) eqn:E2;
    cbn [negb andb]; lia.
Qed.

(** Over-fetching one row: the page is the first [k] rows, and there is a
    next page exactly when there are more than [k] rows. *)
Lemma overfetch {A} (k : nat) (l : list A) :
  let data := firstn (S k) l in
  let more := (k <? List.length data)%nat in
  (if more then firstn k data else data) = firstn k l /\
  (more = true <-> (k < List.length l)%nat).
Proof.
  cbv zeta. rewrite length_firstn.
  destruct (k <? Nat.min (S k) (List.length l))%nat eqn:E.
  - apply Nat.ltb_lt in E. split.
    + rewrite firstn_firstn. f_equal; lia.
    + split; [intros _; lia | reflexivity].
  - apply Nat.ltb_ge in E.
    assert (Hle : (List.length l <= k)%nat) by lia.
    split.
    + rewrite (firstn_all2 l) by lia. rewrite (firstn_all2 l) by lia.
      reflexivity.
    + split; [discriminate | lia].
Qed.

(* ------------------------------------------------------------------ *)
(** ** The protocol *)

(** The two steps every mutation starts with. *)
Ltac enter Hauth Hload :=
  erewrite bind_ok by (apply requireUser_ok; exact Hauth);
  erewrite bind_ok by (apply select_asset_ok; exact Hload);
  cbv beta iota.

Section Protocol.

Variable normalizeNFKC : jsstring -> jsstring.
Variable toLowerCase : jsstring -> jsstring.
Variable sha256_hex : list Z -> jsstring.
Variable ilike : jsstring -> jsstring -> bool.
Variable signedUploadUrl : jsstring -> jsstring.
Variable signedUrl : jsstring -> Z -> jsstring.

(** C4. A mutating call (finalizeUpload, shareAsset, revokeShare,
    deleteAsset) on an existing asset that the caller owns, made with a
    version other than the stored one, throws the version conflict and
    returns the state it was given: no asset, ticket or share row is
    written. *)
Theorem stale_version_is_refused (env : Env) (w : World) (ctx : Context)
    (uid assetId clientSha256 toEmail : jsstring) (canDownload : bool)
    (a : Asset.row) (version : Z) :
  authenticated ctx uid ->
  loads_asset env w assetId a ->
  Asset.owner_id a = uid ->
  Asset.version a <> version ->
  finalizeUpload sha256_hex env assetId clientSha256 version ctx w
    = (Throw VersionConflict, w) /\
  shareAsset toLowerCase env assetId toEmail canDownload version ctx w
    = (Throw VersionConflict, w) /\
  revokeShare toLowerCase env assetId toEmail version ctx w
    = (Throw VersionConflict, w) /\
  deleteAsset env assetId version ctx w
    = (Throw VersionConflict, w).
Proof.
  intros Hauth Hload Hown Hver.
  apply Z.eqb_neq in Hver.
  assert (Ho : JS.eqb (Asset.owner_id a) uid = true)
    by (rewrite Hown; apply jsstring_eqb_refl).
  repeat split.
  - unfold finalizeUpload; enter Hauth Hload.
    rewrite Ho, Hver; reflexivity.
  - unfold shareAsset; enter Hauth Hload.
    rewrite Ho, Hver; reflexivity.
  - unfold revokeShare; enter Hauth Hload.
    rewrite Ho, Hver; reflexivity.
  - unfold deleteAsset; enter Hauth Hload.
    rewrite Ho, Hver; reflexivity.
Qed.

(** C5. A finalizeUpload call that reaches its ticket, finds it unused
    and finds its [expires_at] in the past throws the bad request
    "Ticket expired" and returns the state it was given: the ticket stays
    unused and the asset row is not written. *)
Theorem expired_ticket_is_refused (env : Env) (w : World) (ctx : Context)
    (uid assetId clientSha256 : jsstring) (a : Asset.row) (t : Ticket.row) :
  authenticated ctx uid ->
  loads_asset env w assetId a ->
  Asset.owner_id a = uid ->
  loads_ticket env w assetId t ->
  Ticket.user_id t = uid ->
  Ticket.used t = false ->
  Ticket.expires_at t < now env ->
  finalizeUpload sha256_hex env assetId clientSha256 (Asset.version a) ctx w
    = (Throw TicketExpired, w).
Proof.
  intros Hauth Hload Hown Htick Huser Hused Hexp.
  unfold finalizeUpload; enter Hauth Hload.
  rewrite Hown, jsstring_eqb_refl, Z.eqb_refl; simpl.
  erewrite bind_ok by (apply select_ticket_ok; exact Htick).
  cbv beta iota; rewrite Huser, jsstring_eqb_refl, Hused; simpl.
  apply Z.ltb_lt in Hexp; rewrite Hexp; reflexivity.
Qed.

(** Finalize on a ticket that is already used, past the checks that come
    before: the current asset, and the state as it was. Nothing is
    downloaded, hashed or written, whatever the environment does. *)
Lemma finalize_used_ticket (env : Env) (w : World) (ctx : Context)
    (uid assetId clientSha256 : jsstring) (a : Asset.row) (t : Ticket.row) :
  authenticated ctx uid ->
  loads_asset env w assetId a ->
  Asset.owner_id a = uid ->
  loads_ticket env w assetId t ->
  Ticket.user_id t = uid ->
  Ticket.used t = true ->
  finalizeUpload sha256_hex env assetId clientSha256 (Asset.version a) ctx w
    = (Ok (node_of a), w).
Proof.
  intros Hauth Hload Hown Htick Huser Hused.
  unfold finalizeUpload; enter Hauth Hload.
  rewrite Hown, jsstring_eqb_refl, Z.eqb_refl; simpl.
  erewrite bind_ok by (apply select_ticket_ok; exact Htick).
  cbv beta iota; rewrite Huser, jsstring_eqb_refl, Hused; reflexivity.
Qed.

(** Finalize on an unused, unexpired ticket whose object downloads: the
    row and the ticket are written, and the outcome follows the
    comparison of the two hashes. *)
Lemma finalize_verifies (env : Env) (w : World) (ctx : Context)
    (uid assetId clientSha256 : jsstring) (a : Asset.row) (t : Ticket.row)
    (buffer : list Z) :
  authenticated ctx uid ->
  loads_asset env w assetId a ->
  Asset.owner_id a = uid ->
  loads_ticket env w assetId t ->
  Ticket.user_id t = uid ->
  Ticket.used t = false ->
  now env <= Ticket.expires_at t ->
  fails env DownloadObject = false ->
  object_at (Ticket.storage_path t) (bucket_private w) = Some buffer ->
  fails env UpdateAsset = false ->
  let status :=
    if JS.eqb (sha256_hex buffer) clientSha256 then ready else corrupt in
  let patch :=
    finalize_patch (sha256_hex buffer) status (Asset.version a) (now env) in
  finalizeUpload sha256_hex env assetId clientSha256 (Asset.version a) ctx w
  = ((if JS.eqb (sha256_hex buffer) clientSha256 then Ok (node_of (patch a))
      else Throw HashMismatch),
     snd (use_ticket env assetId
            (set_asset (patch_assets patch assetId (asset w)) w))).
Proof.
  intros Hauth Hload Hown Htick Huser Hused Hexp Hdl Hobj Hupd status patch.
  unfold finalizeUpload; enter Hauth Hload.
  rewrite Hown, jsstring_eqb_refl, Z.eqb_refl; cbn [negb]; cbv beta iota.
  erewrite bind_ok by (apply select_ticket_ok; exact Htick).
  cbv beta iota; rewrite Huser, jsstring_eqb_refl, Hused; cbn [negb]; cbv beta iota.
  assert (Hnexp : (Ticket.expires_at t <? now env) = false)
    by (apply Z.ltb_ge; exact Hexp).
  rewrite Hnexp.
  erewrite bind_ok
    by (unfold download, gets; rewrite Hdl, Hobj; reflexivity).
  cbv beta iota zeta.
  erewrite bind_ok.
  2:{ unfold update_asset_single. rewrite Hupd.
      destruct Hload as [_ Hs]; rewrite Hs. reflexivity. }
  cbv beta iota. fold status. fold patch.
  unfold bind, use_ticket, modify.
  unfold status at 1.
  destruct (JS.eqb (sha256_hex buffer) clientSha256); reflexivity.
Qed.

(** C1. A finalizeUpload call that passes the not-found, ownership,
    version, ticket and expiry checks, and whose object downloads: when
    the hash the server computes equals the claimed one the asset becomes
    [ready] and is returned; when it differs the asset becomes [corrupt]
    and the call throws the integrity error "Hash mismatch". Either way
    the computed hash is stored, the stored version is the old one plus
    one, and the ticket is used. *)
Theorem finalize_settles_the_asset (env : Env) (w : World) (ctx : Context)
    (uid assetId clientSha256 : jsstring) (a : Asset.row) (t : Ticket.row)
    (buffer : list Z) :
  authenticated ctx uid ->
  loads_asset env w assetId a ->
  Asset.owner_id a = uid ->
  loads_ticket env w assetId t ->
  Ticket.user_id t = uid ->
  Ticket.used t = false ->
  now env <= Ticket.expires_at t ->
  fails env DownloadObject = false ->
  object_at (Ticket.storage_path t) (bucket_private w) = Some buffer ->
  fails env UpdateAsset = false ->
  fails env UseTicket = false ->
  exists (a' : Asset.row) (t' : Ticket.row) (w' : World)
         (r : outcome Node.t),
    finalizeUpload sha256_hex env assetId clientSha256 (Asset.version a)
                   ctx w = (r, w') /\
    loads_asset env w' assetId a' /\
    loads_ticket env w' assetId t' /\
    Asset.version a' = Asset.version a + 1 /\
    Asset.sha256 a' = Some (sha256_hex buffer) /\
    Ticket.used t' = true /\
    (sha256_hex buffer = clientSha256 ->
       r = Ok (node_of a') /\ Asset.status a' = ready) /\
    (sha256_hex buffer <> clientSha256 ->
       r = Throw HashMismatch /\ Asset.status a' = corrupt).
Proof.
  intros Hauth Hload Hown Htick Huser Hused Hexp Hdl Hobj Hupd Huse.
  pose proof (finalize_verifies env w ctx uid assetId clientSha256 a t buffer
                Hauth Hload Hown Htick Huser Hused Hexp Hdl Hobj Hupd) as Hrun.
  cbv zeta in Hrun.
  eexists _, (Ticket.with_used true t), _, _.
  split; [exact Hrun|].
  unfold use_ticket, modify; rewrite Huse; cbn [snd].
  split; [|split].
  - split; [apply Hload|]. cbn [asset set_asset set_upload_ticket].
    apply single_patch_assets; [intros []; reflexivity | apply Hload].
  - split; [apply Htick|]. cbn [upload_ticket set_asset set_upload_ticket].
    apply single_use_ticket; apply Htick.
  - do 3 (split; [reflexivity|]).
    split; intros E.
    + apply jsstring_eqb_eq in E; rewrite E; split; reflexivity.
    + destruct (JS.eqb (sha256_hex buffer) clientSha256) eqn:E';
        [apply jsstring_eqb_eq in E'; contradiction | split; reflexivity].
Qed.

(** What a finalize that returned an asset has gone through. *)
Lemma finalize_ok_inv (env : Env) (w w1 : World) (ctx : Context)
    (assetId clientSha256 : jsstring) (version : Z) (n : Node.t) :
  finalizeUpload sha256_hex env assetId clientSha256 version ctx w
    = (Ok n, w1) ->
  exists (uid : jsstring) (a : Asset.row) (t : Ticket.row),
    authenticated ctx uid /\
    loads_asset env w assetId a /\
    Asset.owner_id a = uid /\
    Asset.version a = version /\
    loads_ticket env w assetId t /\
    Ticket.user_id t = uid /\
    ((Ticket.used t = true /\ n = node_of a /\ w1 = w) \/
     (Ticket.used t = false /\
      exists buffer : list Z,
        n = node_of (finalize_patch (sha256_hex buffer) ready version
                                    (now env) a) /\
        w1 = snd (use_ticket env assetId
                    (set_asset
                       (patch_assets
                          (finalize_patch (sha256_hex buffer) ready version
                                          (now env))
                          assetId (asset w)) w)))).
Proof.
  intros H.
  cbv [finalizeUpload bind requireUser throw ret select_asset select_ticket
       gets download update_asset update_asset_single modify] in H.
  destruct (userId ctx) as [uid|] eqn:Hu; [|discriminate].
  destruct (JS.truthy uid) eqn:Ht; [|discriminate].
  destruct (fails env SelectAsset) eqn:Hfa; [discriminate|].
  destruct (single (filter (asset_has_id assetId) (asset w)))
    as [a|] eqn:Hsa; [|discriminate].
  destruct (JS.eqb (Asset.owner_id a) uid) eqn:Ho; [|discriminate].
  destruct (Asset.version a =? version) eqn:Hv; [|discriminate].
  cbn [negb] in H.
  destruct (fails env SelectTicket) eqn:Hft; [discriminate|].
  destruct (single (filter (ticket_of_asset assetId) (upload_ticket w)))
    as [t|] eqn:Hst; [|discriminate].
  destruct (JS.eqb (Ticket.user_id t) uid) eqn:Htu; [|discriminate].
  cbn [negb] in H.
  apply jsstring_eqb_eq in Ho, Htu. apply Z.eqb_eq in Hv.
  exists uid, a, t.
  do 6 (split; [first [exact Ho | exact Hv | exact Htu
                      | split; assumption] |]).
  destruct (Ticket.used t) eqn:Hused.
  - left. injection H as <- <-. auto.
  - right. split; [reflexivity|].
    destruct (Ticket.expires_at t <? now env); [discriminate|].
    destruct (fails env DownloadObject); [discriminate|].
    destruct (object_at (Ticket.storage_path t) (bucket_private w))
      as [buffer|]; [|discriminate].
    destruct (fails env UpdateAsset); [discriminate|].
    rewrite Hsa in H.
    destruct (JS.eqb (sha256_hex buffer) clientSha256); [|discriminate].
    cbn [Status_eqb negb] in H.
    exists buffer. injection H as <- <-. split; reflexivity.
Qed.

(** C2 (as the code has it). After a finalizeUpload that returned an
    asset, a second call for the same asset with the same claimed hash
    and the version that the first call returned (the stored one) returns
    the same asset again and leaves the state as it is, whether or not
    the object could still be downloaded or the row written: the used
    ticket ends the call before any of that. The general rule is
    [finalize_used_ticket]. *)
Theorem finalize_again_returns_the_same (env1 env2 : Env) (w w1 : World)
    (ctx : Context) (assetId clientSha256 : jsstring) (version : Z)
    (n : Node.t) :
  finalizeUpload sha256_hex env1 assetId clientSha256 version ctx w
    = (Ok n, w1) ->
  fails env1 UseTicket = false ->
  fails env2 SelectAsset = false ->
  fails env2 SelectTicket = false ->
  finalizeUpload sha256_hex env2 assetId clientSha256 (Node.version n) ctx w1
    = (Ok n, w1).
Proof.
  intros Hfirst Huse Hfa Hft.
  apply finalize_ok_inv in Hfirst.
  destruct Hfirst as (uid & a & t & Hauth & [_ Hsa] & Hown & Hv & [_ Hst]
                      & Htu & [(Hused & -> & ->) | (Hused & buffer & -> & ->)]).
  - apply (finalize_used_ticket env2 w ctx uid assetId clientSha256 a t);
      try assumption; split; assumption.
  - set (patch := finalize_patch (sha256_hex buffer) ready version
                                 (now env1)).
    unfold use_ticket, modify; rewrite Huse; cbn [snd].
    apply (finalize_used_ticket env2 _ ctx uid assetId clientSha256
             (patch a) (Ticket.with_used true t)); try assumption.
    + split; [assumption|]. cbn [asset set_asset set_upload_ticket].
      apply single_patch_assets; [intros []; reflexivity | assumption].
    + split; [assumption|].
      cbn [upload_ticket set_asset set_upload_ticket].
      apply single_use_ticket; assumption.
    + reflexivity.
Qed.

(** Finalize when the object cannot be downloaded: the row is marked
    [corrupt] by a write that sets the status and nothing else, and the
    call throws the integrity error "Object missing". *)
Lemma finalize_object_missing (env : Env) (w : World) (ctx : Context)
    (uid assetId clientSha256 : jsstring) (a : Asset.row) (t : Ticket.row) :
  authenticated ctx uid ->
  loads_asset env w assetId a ->
  Asset.owner_id a = uid ->
  loads_ticket env w assetId t ->
  Ticket.user_id t = uid ->
  Ticket.used t = false ->
  now env <= Ticket.expires_at t ->
  (fails env DownloadObject = true \/
   object_at (Ticket.storage_path t) (bucket_private w) = None) ->
  fails env MarkCorrupt = false ->
  finalizeUpload sha256_hex env assetId clientSha256 (Asset.version a) ctx w
    = (Throw ObjectMissing, with_asset_status corrupt assetId w) /\
  loads_asset env (with_asset_status corrupt assetId w) assetId
              (Asset.with_status corrupt a) /\
  Asset.version (Asset.with_status corrupt a) = Asset.version a.
Proof.
  intros Hauth Hload Hown Htick Huser Hused Hexp Hdl Hmark.
  split; [|split; [|reflexivity]].
  - unfold finalizeUpload; enter Hauth Hload.
    rewrite Hown, jsstring_eqb_refl, Z.eqb_refl; cbn [negb]; cbv beta iota.
    erewrite bind_ok by (apply select_ticket_ok; exact Htick).
    cbv beta iota; rewrite Huser, jsstring_eqb_refl, Hused; cbn [negb];
      cbv beta iota.
    assert (Hnexp : (Ticket.expires_at t <? now env) = false)
      by (apply Z.ltb_ge; exact Hexp).
    rewrite Hnexp.
    assert (Hnone : download env (Ticket.storage_path t) w = (Ok None, w)).
    { unfold download, gets.
      destruct Hdl as [Hdl | Hdl]; rewrite Hdl;
        [|destruct (fails env DownloadObject)]; reflexivity. }
    erewrite bind_ok by exact Hnone.
    cbv beta iota.
    unfold bind, update_asset, modify, throw; rewrite Hmark; reflexivity.
  - split; [apply Hload|].
    unfold with_asset_status; cbn [asset set_asset].
    apply single_patch_assets; [intros []; reflexivity | apply Hload].
Qed.

(** The directory lookup reads and never throws. *)
Lemma findUserIdByEmail_reads (env : Env) (email : jsstring) (w : World) :
  exists r : option jsstring,
    findUserIdByEmail toLowerCase env email w = (Ok r, w).
Proof.
  unfold findUserIdByEmail, bind, listUsers, gets, ret.
  destruct (fails env ListUsers); eexists; reflexivity.
Qed.

(** A share to somebody else bumps the version by one. *)
Lemma share_bumps_once (env : Env) (w : World) (ctx : Context)
    (uid assetId toEmail toUserId : jsstring) (canDownload : bool)
    (a : Asset.row) :
  authenticated ctx uid ->
  loads_asset env w assetId a ->
  Asset.owner_id a = uid ->
  findUserIdByEmail toLowerCase env toEmail w = (Ok (Some toUserId), w) ->
  JS.truthy toUserId = true ->
  toUserId <> uid ->
  fails env UpsertShare = false ->
  fails env BumpVersion = false ->
  exists (a' : Asset.row) (w' : World),
    shareAsset toLowerCase env assetId toEmail canDownload (Asset.version a)
               ctx w = (Ok (node_of a'), w') /\
    loads_asset env w' assetId a' /\
    Asset.version a' = Asset.version a + 1 /\
    Asset.status a' = Asset.status a /\
    Asset.sha256 a' = Asset.sha256 a.
Proof.
  intros Hauth Hload Hown Hfind Htruthy Hother Hups Hbump.
  unfold shareAsset; enter Hauth Hload.
  rewrite Hown, jsstring_eqb_refl, Z.eqb_refl; cbn [negb]; cbv beta iota.
  erewrite bind_ok by exact Hfind.
  destruct toUserId as [|c toUserId]; [discriminate Htruthy|].
  cbv beta iota.
  assert (Hne : JS.eqb (c :: toUserId) uid = false).
  { destruct (JS.eqb (c :: toUserId) uid) eqn:E; [|reflexivity].
    apply jsstring_eqb_eq in E; contradiction. }
  rewrite Hne.
  unfold bind at 1, upsert_share; rewrite Hups; cbn [negb].
  unfold bind, update_asset_single, ret; rewrite Hbump.
  cbn [asset set_asset_share].
  destruct Hload as [Hfa Hs]; rewrite Hs.
  do 2 eexists; split; [reflexivity|].
  split; [|repeat split; reflexivity].
  split; [exact Hfa|]. cbn [asset set_asset set_asset_share].
  apply single_patch_assets; [intros []; reflexivity | exact Hs].
Qed.

(** A revoke bumps the version by one, whether or not there was anything
    to revoke. *)
Lemma revoke_bumps_once (env : Env) (w : World) (ctx : Context)
    (uid assetId toEmail : jsstring) (a : Asset.row) :
  authenticated ctx uid ->
  loads_asset env w assetId a ->
  Asset.owner_id a = uid ->
  fails env BumpVersion = false ->
  exists (a' : Asset.row) (w' : World),
    revokeShare toLowerCase env assetId toEmail (Asset.version a) ctx w
      = (Ok (node_of a'), w') /\
    loads_asset env w' assetId a' /\
    Asset.version a' = Asset.version a + 1 /\
    Asset.status a' = Asset.status a /\
    Asset.sha256 a' = Asset.sha256 a.
Proof.
  intros Hauth Hload Hown Hbump.
  unfold revokeShare; enter Hauth Hload.
  rewrite Hown, jsstring_eqb_refl, Z.eqb_refl; cbn [negb]; cbv beta iota.
  destruct (findUserIdByEmail_reads env toEmail w) as [r Hfind].
  erewrite bind_ok by exact Hfind.
  destruct Hload as [Hfa Hs].
  assert (Hdel : exists w0,
             (match r with
              | None | Some [] => ret tt
              | Some toUserId => delete_share env assetId toUserId
              end) w = (Ok tt, w0) /\ asset w0 = asset w).
  { destruct r as [[|c r]|]; unfold ret, delete_share, modify;
      try (eexists; split; reflexivity).
    destruct (fails env DeleteShare); eexists; split; reflexivity. }
  destruct Hdel as (w0 & Hdel & Hsame).
  erewrite bind_ok by exact Hdel.
  unfold bind, update_asset_single, ret; rewrite Hbump, Hsame, Hs.
  do 2 eexists; split; [reflexivity|].
  split; [|repeat split; reflexivity].
  split; [exact Hfa|]. cbn [asset set_asset].
  apply single_patch_assets; [intros []; reflexivity | exact Hs].
Qed.

(** C9. A shareAsset call that passes the ownership and version checks
    and whose target e-mail resolves to the caller's own id returns the
    asset as stored, at the stored version, and returns the state it was
    given: no share row is added or changed and the asset row is not
    written. *)
Theorem self_share_is_a_no_op (env : Env) (w : World) (ctx : Context)
    (uid assetId toEmail : jsstring) (canDownload : bool) (a : Asset.row) :
  authenticated ctx uid ->
  loads_asset env w assetId a ->
  Asset.owner_id a = uid ->
  findUserIdByEmail toLowerCase env toEmail w = (Ok (Some uid), w) ->
  shareAsset toLowerCase env assetId toEmail canDownload (Asset.version a)
             ctx w
    = (Ok (node_of a), w).
Proof.
  intros Hauth Hload Hown Hfind.
  unfold shareAsset; enter Hauth Hload.
  rewrite Hown, jsstring_eqb_refl, Z.eqb_refl; cbn [negb]; cbv beta iota.
  erewrite bind_ok by exact Hfind.
  destruct Hauth as [_ Ht].
  destruct uid as [|c uid]; [discriminate Ht|].
  cbv beta iota. rewrite jsstring_eqb_refl. reflexivity.
Qed.

(** C10. For an existing asset that the caller owns, getDownloadUrl
    returns the read URL signed for the asset's storage path for 120
    seconds, and does so whatever the asset's status: with the row's
    status replaced by any status ([uploading], [corrupt], [ready]) the
    call returns the same URL. *)
Theorem download_url_ignores_status (env : Env) (w : World) (ctx : Context)
    (uid assetId : jsstring) (a : Asset.row) (s : Status) :
  authenticated ctx uid ->
  loads_asset env w assetId a ->
  Asset.owner_id a = uid ->
  fails env SignRead = false ->
  getDownloadUrl signedUrl env assetId ctx w
    = (Ok (signedUrl (Asset.storage_path a) 120), w) /\
  getDownloadUrl signedUrl env assetId ctx (with_asset_status s assetId w)
    = (Ok (signedUrl (Asset.storage_path a) 120),
       with_asset_status s assetId w).
Proof.
  intros Hauth Hload Hown Hsign.
  assert (Hrun : forall w' a',
             loads_asset env w' assetId a' ->
             Asset.owner_id a' = uid ->
             getDownloadUrl signedUrl env assetId ctx w'
             = (Ok (signedUrl (Asset.storage_path a') 120), w')).
  { intros w' a' Hload' Hown'.
    unfold getDownloadUrl; enter Hauth Hload'.
    rewrite Hown', jsstring_eqb_refl; cbn [negb]; cbv beta iota.
    unfold createSignedUrl, bind, ret; rewrite Hsign; reflexivity. }
  split.
  - apply Hrun; assumption.
  - apply (Hrun _ (Asset.with_status s a)); [|exact Hown].
    split; [apply Hload|].
    unfold with_asset_status; cbn [asset set_asset].
    apply single_patch_assets; [intros []; reflexivity | apply Hload].
Qed.

(** C6. For an authenticated caller of createUploadUrl: when the MIME
    type is allowed (image, video or PDF) and the size is strictly
    positive and at most 30 MiB, the call (with a fresh identifier and
    with the store and the signer answering) returns the upload ticket and
    adds one asset row, at version 1 and in [uploading] status, and its
    ticket; for every other (mime, size) pair it throws a bad request
    and returns the state it was given, so no row is created. *)
Theorem upload_policy (env : Env) (w : World) (ctx : Context)
    (uid filename mime : jsstring) (size : Z) :
  authenticated ctx uid ->
  (media_type mime ->
   0 < size <= 30 * 1024 * 1024 ->
   existsb (asset_has_id (randomUUID env)) (asset w) = false ->
   fails env InsertAsset = false ->
   fails env InsertTicket = false ->
   fails env SignUpload = false ->
   exists (r : UploadUrl.t) (a : Asset.row) (t : Ticket.row) (w' : World),
     createUploadUrl normalizeNFKC signedUploadUrl env filename mime size
                     ctx w = (Ok r, w') /\
     asset w' = asset w ++ [a] /\
     upload_ticket w' = upload_ticket w ++ [t] /\
     asset_share w' = asset_share w /\
     UploadUrl.assetId r = randomUUID env /\
     Asset.id a = randomUUID env /\
     Asset.owner_id a = uid /\
     Asset.mime a = mime /\
     Asset.size a = size /\
     Asset.version a = 1 /\
     Asset.status a = uploading /\
     Ticket.asset_id t = randomUUID env /\
     Ticket.used t = false) /\
  (~ media_type mime \/ size <= 0 \/ 30 * 1024 * 1024 < size ->
   exists msg : string,
     createUploadUrl normalizeNFKC signedUploadUrl env filename mime size
                     ctx w = (Throw (mkError msg BAD_REQUEST), w)).
Proof.
  intros Hauth; split.
  - intros Hmime [Hpos Hmax] Hfresh Hia Hit Hsu.
    apply isMimeAllowed_media_type in Hmime.
    unfold createUploadUrl.
    erewrite bind_ok by (apply requireUser_ok; exact Hauth).
    rewrite Hmime; cbn [negb]; cbv beta iota.
    assert (Hsz : (size <=? 0) || (MAX_SIZE_BYTES <? size) = false).
    { apply orb_false_iff; split;
        [apply Z.leb_gt | apply Z.ltb_ge; unfold MAX_SIZE_BYTES]; lia. }
    rewrite Hsz; cbv beta iota zeta.
    unfold bind at 1, insert_asset; rewrite Hia, Hfresh; cbn [negb].
    unfold bind at 1, insert_ticket; rewrite Hit; cbn [negb].
    unfold bind, createSignedUploadUrl, ret; rewrite Hsu.
    do 4 eexists. split; [reflexivity|].
    cbn. repeat split; reflexivity.
  - intros Hbad. unfold createUploadUrl.
    erewrite bind_ok by (apply requireUser_ok; exact Hauth).
    destruct (isMimeAllowed mime) eqn:Hmime; cbn [negb]; cbv beta iota.
    + assert (Hsz : (size <=? 0) || (MAX_SIZE_BYTES <? size) = true).
      { apply isMimeAllowed_media_type in Hmime.
        destruct Hbad as [Hbad | [Hbad | Hbad]]; [contradiction | |];
          apply orb_true_iff; [left; apply Z.leb_le
                              | right; apply Z.ltb_lt; unfold MAX_SIZE_BYTES];
          lia. }
      rewrite Hsz. eexists; reflexivity.
    + eexists; reflexivity.
Qed.

(** C8 (as the code has it). For an authenticated myAssets query that the
    store answers: the effective page size is [first] when
    [1 <= first <= 50] and 20 in every other case (absent, zero, negative
    or above 50); the edges are the first rows, up to the effective page
    size, of the matching rows in descending creation order, so there are
    at most that many; and [hasNextPage] is true exactly when the number
    of matching rows beyond the cursor exceeds the effective page size. *)
Theorem listing_page (env : Env) (w : World) (ctx : Context)
    (uid : jsstring) (after first : option Z) (q : option jsstring) :
  authenticated ctx uid ->
  fails env ListAssets = false ->
  let matching := matching_assets ilike after q w in
  exists (limit : Z) (c : Connection),
    myAssets ilike env after first q ctx w = (Ok c, w) /\
    (forall n, first = Some n -> 1 <= n <= 50 -> limit = n) /\
    (forall n, first = Some n -> n < 1 \/ 50 < n -> limit = 20) /\
    (first = None -> limit = 20) /\
    map node (edges c)
      = map node_of (firstn (Z.to_nat limit)
                            (order_created_at_desc matching)) /\
    Z.of_nat (List.length (edges c)) <= limit /\
    (hasNextPage (pageInfo c) = true
     <-> limit < Z.of_nat (List.length matching)).
Proof.
  intros Hauth Hlist matching.
  pose proof (page_limit_range first) as Hrange.
  exists (page_limit first).
  unfold myAssets.
  erewrite bind_ok by (apply requireUser_ok; exact Hauth).
  cbv zeta. unfold bind at 1, list_assets, gets. rewrite Hlist.
  fold matching.
  set (limit := page_limit first) in *.
  set (sorted := order_created_at_desc matching).
  replace (Z.to_nat (limit + 1)) with (S (Z.to_nat limit)) by lia.
  destruct (overfetch (Z.to_nat limit) sorted) as [Hslice Hmore].
  cbv zeta in Hslice, Hmore.
  assert (Hltb : (limit <? Z.of_nat (List.length
                                       (firstn (S (Z.to_nat limit)) sorted)))
                 = (Z.to_nat limit
                    <? List.length (firstn (S (Z.to_nat limit)) sorted))%nat).
  { destruct (Nat.ltb_spec (Z.to_nat limit)
                (List.length (firstn (S (Z.to_nat limit)) sorted)));
      [apply Z.ltb_lt | apply Z.ltb_ge]; lia. }
  rewrite Hltb, Hslice.
  eexists; split; [reflexivity|].
  cbn [edges pageInfo hasNextPage].
  split; [intros n -> Hn; apply page_limit_in_range; exact Hn|].
  split; [intros n -> Hn; apply page_limit_out_of_range; exact Hn|].
  split; [intros ->; reflexivity|].
  split; [rewrite map_map; reflexivity|].
  split.
  - rewrite length_map.
    pose proof (firstn_le_length (Z.to_nat limit) sorted). lia.
  - rewrite Hmore. unfold sorted.
    rewrite order_created_at_desc_length. lia.
Qed.

End Protocol.

(* ------------------------------------------------------------------ *)
(** ** Around the protocol: identity, refusals, frames *)

Lemma startsWith_app (s p : jsstring) :
  JS.startsWith s p = true <-> exists rest, s = p ++ rest.
Proof.
  revert s; induction p as [|c p IH]; intros s; simpl.
  - split; [intros _; exists s; reflexivity | destruct s; reflexivity].
  - destruct s as [|d s].
    + split; [discriminate | intros [rest E]; discriminate E].
    + simpl. rewrite andb_true_iff, Z.eqb_eq, IH. split.
      * intros [-> [rest ->]]; exists rest; reflexivity.
      * intros [rest E]; injection E as -> ->. split; [reflexivity|].
        exists rest; reflexivity.
Qed.

Lemma single_of_filter {A} (p : A -> bool) (l : list A) (a r : A) :
  single (filter p l) = Some a -> In r l -> p r = true -> r = a.
Proof.
  intros Hs Hin Hp. apply single_inv in Hs.
  assert (Hf : In r (filter p l)) by (apply filter_In; auto).
  rewrite Hs in Hf. destruct Hf as [<- | []]. reflexivity.
Qed.

(** Every step of every resolver, unfolded; the directory lookup stays
    folded, [findUserIdByEmail_reads] says all a run needs of it. *)
Ltac unfold_run :=
  cbv [myAssets createUploadUrl finalizeUpload shareAsset revokeShare
       deleteAsset getDownloadUrl list_assets
       createSignedUploadUrl createSignedUrl bind requireUser throw ret
       gets modify select_asset select_ticket download update_asset
       update_asset_single insert_asset insert_ticket use_ticket
       upsert_share delete_share delete_asset].

Ltac unfold_run_in H :=
  cbv [myAssets createUploadUrl finalizeUpload shareAsset revokeShare
       deleteAsset getDownloadUrl list_assets
       createSignedUploadUrl createSignedUrl bind requireUser throw ret
       gets modify select_asset select_ticket download update_asset
       update_asset_single insert_asset insert_ticket use_ticket
       upsert_share delete_share delete_asset] in H.

(** Case analysis on every test the run in [H] goes through, innermost
    test first. *)
Ltac case_of_run H :=
  first
    [ match goal with
      | Hq : ?x = _ |- _ =>
          match type of H with
          | context [match x with _ => _ end] => rewrite Hq in H
          end
      end
    | match type of H with
      | context [match ?x with _ => _ end] =>
          lazymatch x with
          | context [match _ with _ => _ end] => fail
          | _ => destruct x eqn:?
          end
      end
    | match type of H with
      | context [match ?x with _ => _ end] => destruct x eqn:?
      end ].

Ltac project_in H :=
  cbn [asset upload_ticket asset_share auth_users bucket_private
       set_asset set_upload_ticket set_asset_share
       Share.asset_id Share.to_user] in H.

Ltac cases_of_run H :=
  project_in H; repeat (case_of_run H; cbv beta iota in H; project_in H).

Ltac case_of_goal :=
  first
    [ match goal with
      | Hq : ?x = _ |- context [match ?x with _ => _ end] => rewrite Hq
      end
    | match goal with
      | |- context [match ?x with _ => _ end] =>
          lazymatch x with
          | context [match _ with _ => _ end] => fail
          | _ => destruct x eqn:?
          end
      end
    | match goal with
      | |- context [match ?x with _ => _ end] => destruct x eqn:?
      end ].

Ltac project :=
  cbn [asset upload_ticket asset_share auth_users bucket_private
       set_asset set_upload_ticket set_asset_share
       Share.asset_id Share.to_user snd].

Ltac cases_of_goal :=
  project; repeat (case_of_goal; cbv beta iota; project).

(** Lists, rows and share rows. *)

Lemma row_moves_on_refl (r : Asset.row) : row_moves_on r r.
Proof. unfold row_moves_on; repeat split; lia. Qed.

Lemma rows_unchanged (i : jsstring) (l : list Asset.row) :
  Forall2 (fun r r' => row_moves_on r r' /\
                       (asset_has_id i r = false -> r' = r)) l l.
Proof.
  induction l as [|r l IH]; constructor; [|exact IH].
  split; [apply row_moves_on_refl | reflexivity].
Qed.

Lemma rows_patched (patch : Asset.row -> Asset.row) (i : jsstring)
    (l : list Asset.row) (a : Asset.row) :
  single (filter (asset_has_id i) l) = Some a ->
  row_moves_on a (patch a) ->
  Forall2 (fun r r' => row_moves_on r r' /\
                       (asset_has_id i r = false -> r' = r))
          l (patch_assets patch i l).
Proof.
  intros Hs Hmove. unfold patch_assets.
  assert (Hall : forall r, In r l -> asset_has_id i r = true -> r = a)
    by (intros r; apply single_of_filter; exact Hs).
  clear Hs. induction l as [|r l IH]; cbn [map]; constructor.
  - destruct (asset_has_id i r) eqn:E.
    + rewrite (Hall r (or_introl eq_refl) E).
      split; [exact Hmove | discriminate].
    + split; [apply row_moves_on_refl | reflexivity].
  - apply IH. intros r' Hin; apply Hall; right; exact Hin.
Qed.

Lemma existsb_false_filter {A} (p : A -> bool) (l : list A) :
  existsb p l = false -> filter p l = [].
Proof.
  induction l as [|x l IH]; simpl; [reflexivity|].
  destruct (p x); simpl; [discriminate | exact IH].
Qed.

Lemma existsb_true_filter {A} (p : A -> bool) (l : list A) :
  existsb p l = true -> (1 <= List.length (filter p l))%nat.
Proof.
  induction l as [|x l IH]; simpl; [discriminate|].
  destruct (p x); simpl; [lia | exact IH].
Qed.

Lemma map_const_on {A} (p : A -> bool) (r : A) (l : list A) :
  map (fun s => if p s then r else s) (filter p l)
  = repeat r (List.length (filter p l)).
Proof.
  induction l as [|x l IH]; simpl; [reflexivity|].
  destruct (p x) eqn:E; simpl; [rewrite E, IH|]; auto.
Qed.

Lemma map_id_off {A} (p : A -> bool) (r : A) (l : list A) :
  map (fun s => if p s then r else s) (filter (fun s => negb (p s)) l)
  = filter (fun s => negb (p s)) l.
Proof.
  induction l as [|x l IH]; simpl; [reflexivity|].
  destruct (p x) eqn:E; simpl; [|rewrite E, IH]; auto.
Qed.

Lemma filter_off {A} (p : A -> bool) (l : list A) :
  filter p (filter (fun s => negb (p s)) l) = [].
Proof.
  induction l as [|x l IH]; cbn [filter]; [reflexivity|].
  destruct (p x) eqn:E; cbn [negb filter]; [|rewrite E]; exact IH.
Qed.

Lemma filter_filter_same {A} (p : A -> bool) (l : list A) :
  filter p (filter p l) = filter p l.
Proof.
  induction l as [|x l IH]; cbn [filter]; [reflexivity|].
  destruct (p x) eqn:E; cbn [filter]; [rewrite E, IH|]; auto.
Qed.

(** The upsert on the list of share rows. *)
Lemma upsert_rows (i u : jsstring) (c : bool) (l : list Share.row) :
  let r := Share.mk i u c in
  let l' := if existsb (share_has_key i u) l
            then map (fun s => if share_has_key i u s then r else s) l
            else l ++ [r] in
  shares_for i u l'
    = repeat r (Nat.max 1 (List.length (shares_for i u l))) /\
  other_shares i u l' = other_shares i u l.
Proof.
  cbv zeta. unfold shares_for, other_shares.
  assert (Hr : share_has_key i u (Share.mk i u c) = true)
    by (unfold share_has_key; cbn; rewrite !jsstring_eqb_refl; reflexivity).
  destruct (existsb (share_has_key i u) l) eqn:E.
  - pose proof (existsb_true_filter _ _ E) as Hlen.
    split.
    + rewrite filter_map_stable
        by (intros x; destruct (share_has_key i u x) eqn:Ex; auto).
      rewrite map_const_on. f_equal. lia.
    + rewrite filter_map_stable
        by (intros x; destruct (share_has_key i u x) eqn:Ex;
            [rewrite Hr | rewrite Ex]; reflexivity).
      apply map_id_off.
  - rewrite !filter_app. cbn [filter]. rewrite Hr; cbn [negb].
    rewrite (existsb_false_filter _ _ E), app_nil_r. split; reflexivity.
Qed.

Lemma insert_desc_In (r x : Asset.row) (l : list Asset.row) :
  In x (insert_desc r l) <-> x = r \/ In x l.
Proof.
  induction l as [|y l IH]; simpl.
  - intuition congruence.
  - destruct (Asset.created_at y <? Asset.created_at r); simpl;
      rewrite ?IH; intuition congruence.
Qed.

Lemma order_created_at_desc_In (x : Asset.row) (l : list Asset.row) :
  In x (order_created_at_desc l) <-> In x l.
Proof.
  induction l as [|y l IH]; simpl; [reflexivity|].
  rewrite insert_desc_In, IH. intuition congruence.
Qed.

Lemma order_created_at_desc_sorted (l : list Asset.row) :
  StronglySorted (fun r1 r2 => Asset.created_at r2 <= Asset.created_at r1)
                 (order_created_at_desc l).
Proof.
  induction l as [|r l IH]; simpl; [constructor|].
  induction IH as [|y m Hm IHm Hall]; simpl.
  - repeat constructor.
  - destruct (Asset.created_at y <? Asset.created_at r) eqn:E.
    + apply Z.ltb_lt in E. constructor; [constructor; assumption|].
      constructor; [lia|].
      rewrite Forall_forall in *. intros z Hz. specialize (Hall z Hz). lia.
    + apply Z.ltb_ge in E. constructor; [exact IHm|].
      rewrite Forall_forall in *. intros z Hz.
      apply insert_desc_In in Hz. destruct Hz as [-> | Hz]; [lia | auto].
Qed.

Lemma firstn_In {A} (n : nat) (l : list A) (x : A) :
  In x (firstn n l) -> In x l.
Proof.
  revert n; induction l as [|y l IH]; intros [|n]; simpl; try tauto.
  intros [-> | H]; [left; reflexivity | right; eapply IH; exact H].
Qed.

Lemma StronglySorted_firstn {A} (R : A -> A -> Prop) (n : nat)
    (l : list A) :
  StronglySorted R l -> StronglySorted R (firstn n l).
Proof.
  intros H; revert n; induction H as [|x l Hl IH Hall]; intros [|n]; simpl;
    try constructor; auto.
  rewrite Forall_forall in *. intros y Hy. apply Hall.
  eapply firstn_In; exact Hy.
Qed.

Lemma StronglySorted_map {A B} (f : A -> B) (R : B -> B -> Prop)
    (l : list A) :
  StronglySorted (fun x y => R (f x) (f y)) l -> StronglySorted R (map f l).
Proof.
  induction 1 as [|x l Hl IH Hall]; simpl; constructor; auto.
  rewrite Forall_forall in *. intros y Hy. apply in_map_iff in Hy.
  destruct Hy as (z & <- & Hz). auto.
Qed.

Lemma last_nth_error {A} (l : list A) :
  match nth_error l (List.length l - 1) with
  | Some x => exists rest, l = rest ++ [x]
  | None => l = []
  end.
Proof.
  induction l as [|x rest _] using rev_ind; [reflexivity|].
  rewrite length_app; cbn [List.length].
  replace (List.length rest + 1 - 1)%nat with (List.length rest) by lia.
  rewrite nth_error_app2, Nat.sub_diag by lia. cbn. exists rest; reflexivity.
Qed.

Lemma StronglySorted_last {A} (R : A -> A -> Prop) (l : list A) (x : A) :
  StronglySorted R (l ++ [x]) -> Forall (fun y => R y x) l.
Proof.
  induction l as [|y l IH]; cbn [app]; intros H; [constructor|].
  inversion H as [|? ? Hl Hall]; subst. constructor.
  - rewrite Forall_forall in Hall. apply Hall, in_or_app. right; left.
    reflexivity.
  - apply IH; exact Hl.
Qed.

Lemma trimStart_white (s : jsstring) :
  (forall c, In c s -> JS.isWhiteSpace c = true) -> JS.trimStart s = [].
Proof.
  induction s as [|c s IH]; intros Hall; cbn [JS.trimStart]; [reflexivity|].
  rewrite (Hall c (or_introl eq_refl)).
  apply IH. intros c' Hin; apply Hall; right; exact Hin.
Qed.

Section Around.

Local Set Default Proof Using "Type".

Variable normalizeNFKC : jsstring -> jsstring.
Variable toLowerCase : jsstring -> jsstring.
Variable sha256_hex : list Z -> jsstring.
Variable ilike : jsstring -> jsstring -> bool.
Variable signedUploadUrl : jsstring -> jsstring.
Variable signedUrl : jsstring -> Z -> jsstring.
Variable jwt_verify : jsstring -> jsstring -> option JwtPayload.
Variable SUPABASE_JWT_SECRET : jsstring.

(** X1. [createContext] gives the caller the identity [s] exactly when
    the authorization header is "Bearer " followed by a non-empty token
    that [jwt.verify] accepts and whose [sub] is the string [s]. In every
    other case (no header, another scheme or another letter case, an empty
    token, a token that does not verify, a [sub] that is not a string)
    [userId] is [null]. *)
Theorem createContext_identity (request : Request) (s : jsstring) :
  userId (createContext jwt_verify SUPABASE_JWT_SECRET request) = Some s <->
  exists (token : jsstring) (decoded : JwtPayload),
    authorization request = Some (JS.str "Bearer " ++ token) /\
    token <> [] /\
    jwt_verify token SUPABASE_JWT_SECRET = Some decoded /\
    sub decoded = ClaimString s.
Proof.
  unfold createContext. split.
  - destruct (authorization request) as [h|] eqn:Hh.
    + destruct (JS.startsWith h (JS.str "Bearer ")) eqn:Hp.
      * apply startsWith_app in Hp. destruct Hp as [token ->].
        change (skipn 7 (JS.str "Bearer " ++ token)) with token.
        destruct token as [|c token]; [discriminate|].
        cbn [JS.truthy negb].
        destruct (jwt_verify (c :: token) SUPABASE_JWT_SECRET)
          as [decoded|] eqn:Hv; [|discriminate].
        destruct (sub decoded) as [s'|] eqn:Hs; [|discriminate].
        cbn [userId]. intros E; injection E as ->.
        exists (c :: token), decoded. repeat split; try assumption.
        discriminate.
      * discriminate.
    + discriminate.
  - intros (token & decoded & -> & Hne & Hv & Hs).
    assert (Hp : JS.startsWith (JS.str "Bearer " ++ token) (JS.str "Bearer ")
                 = true) by (apply startsWith_app; eexists; reflexivity).
    rewrite Hp.
    change (skipn 7 (JS.str "Bearer " ++ token)) with token.
    destruct token as [|c token]; [contradiction|].
    cbn [JS.truthy negb]. rewrite Hv, Hs. reflexivity.
Qed.

(** X2. A caller without identity ([ctx.userId] null or empty) is
    refused by every resolver, the query included, with the
    unauthenticated error, before anything is read or written. *)
Theorem anonymous_is_refused (env : Env) (w : World) (ctx : Context)
    (assetId clientSha256 toEmail filename mime : jsstring)
    (after first : option Z) (q : option jsstring) (size version : Z)
    (canDownload : bool) :
  anonymous ctx ->
  myAssets ilike env after first q ctx w = (Throw Unauthenticated, w) /\
  createUploadUrl normalizeNFKC signedUploadUrl env filename mime size ctx w
    = (Throw Unauthenticated, w) /\
  finalizeUpload sha256_hex env assetId clientSha256 version ctx w
    = (Throw Unauthenticated, w) /\
  shareAsset toLowerCase env assetId toEmail canDownload version ctx w
    = (Throw Unauthenticated, w) /\
  revokeShare toLowerCase env assetId toEmail version ctx w
    = (Throw Unauthenticated, w) /\
  deleteAsset env assetId version ctx w = (Throw Unauthenticated, w) /\
  getDownloadUrl signedUrl env assetId ctx w = (Throw Unauthenticated, w).
Proof.
  intros Hanon.
  assert (Hreq : requireUser ctx w = (Throw Unauthenticated, w)).
  { unfold requireUser; destruct Hanon as [-> | ->]; reflexivity. }
  repeat split;
    [ unfold myAssets | unfold createUploadUrl | unfold finalizeUpload
    | unfold shareAsset | unfold revokeShare | unfold deleteAsset
    | unfold getDownloadUrl ];
    apply bind_throw; exact Hreq.
Qed.

(** X3. For an authenticated caller, an asset id that no row carries
    makes finalizeUpload, shareAsset, revokeShare, deleteAsset and
    getDownloadUrl throw "Asset not found" and leave the state as it
    was. *)
Theorem unknown_asset_is_not_found (env : Env) (w : World) (ctx : Context)
    (uid assetId clientSha256 toEmail : jsstring) (version : Z)
    (canDownload : bool) :
  authenticated ctx uid ->
  filter (asset_has_id assetId) (asset w) = [] ->
  finalizeUpload sha256_hex env assetId clientSha256 version ctx w
    = (Throw AssetNotFound, w) /\
  shareAsset toLowerCase env assetId toEmail canDownload version ctx w
    = (Throw AssetNotFound, w) /\
  revokeShare toLowerCase env assetId toEmail version ctx w
    = (Throw AssetNotFound, w) /\
  deleteAsset env assetId version ctx w = (Throw AssetNotFound, w) /\
  getDownloadUrl signedUrl env assetId ctx w = (Throw AssetNotFound, w).
Proof.
  intros Hauth Hnone.
  assert (Hsel : select_asset env assetId w = (Ok None, w)).
  { unfold select_asset, gets; rewrite Hnone.
    destruct (fails env SelectAsset); reflexivity. }
  repeat split;
    [ unfold finalizeUpload | unfold shareAsset | unfold revokeShare
    | unfold deleteAsset | unfold getDownloadUrl ];
    erewrite bind_ok by (apply requireUser_ok; exact Hauth);
    erewrite bind_ok by exact Hsel; reflexivity.
Qed.

(** X4. For an authenticated caller who is not the owner of an existing
    asset, finalizeUpload, shareAsset, revokeShare, deleteAsset and
    getDownloadUrl throw "Forbidden" and leave the state as it was,
    whatever the share rows say: a share, with or without the download
    permission, opens none of them. *)
Theorem not_the_owner_is_forbidden (env : Env) (w : World) (ctx : Context)
    (uid assetId clientSha256 toEmail : jsstring) (version : Z)
    (canDownload : bool) (a : Asset.row) :
  authenticated ctx uid ->
  loads_asset env w assetId a ->
  Asset.owner_id a <> uid ->
  finalizeUpload sha256_hex env assetId clientSha256 version ctx w
    = (Throw Forbidden, w) /\
  shareAsset toLowerCase env assetId toEmail canDownload version ctx w
    = (Throw Forbidden, w) /\
  revokeShare toLowerCase env assetId toEmail version ctx w
    = (Throw Forbidden, w) /\
  deleteAsset env assetId version ctx w = (Throw Forbidden, w) /\
  getDownloadUrl signedUrl env assetId ctx w = (Throw Forbidden, w).
Proof.
  intros Hauth Hload Hother.
  assert (Ho : JS.eqb (Asset.owner_id a) uid = false).
  { destruct (JS.eqb (Asset.owner_id a) uid) eqn:E; [|reflexivity].
    apply jsstring_eqb_eq in E; contradiction. }
  repeat split;
    [ unfold finalizeUpload | unfold shareAsset | unfold revokeShare
    | unfold deleteAsset | unfold getDownloadUrl ];
    enter Hauth Hload; rewrite Ho; reflexivity.
Qed.

(** X5. In every mutation, a call that ends in one of the refusals
    (unauthenticated, not found, forbidden, version conflict) has written
    nothing: the state it returns is the state it was given. *)
Theorem refusals_write_nothing (env : Env) (ctx : Context)
    (assetId clientSha256 toEmail filename mime : jsstring)
    (size version : Z) (canDownload : bool) :
  refusals_keep_state
    (createUploadUrl normalizeNFKC signedUploadUrl env filename mime size
                     ctx) /\
  refusals_keep_state
    (finalizeUpload sha256_hex env assetId clientSha256 version ctx) /\
  refusals_keep_state
    (shareAsset toLowerCase env assetId toEmail canDownload version ctx) /\
  refusals_keep_state
    (revokeShare toLowerCase env assetId toEmail version ctx) /\
  refusals_keep_state (deleteAsset env assetId version ctx).
Proof.
  repeat split; intros w w' e H Hcode;
    destruct (findUserIdByEmail_reads toLowerCase env toEmail w)
      as [found Hfind];
    unfold_run_in H; cases_of_run H;
    try discriminate H; inversion H; subst;
    first [reflexivity | discriminate Hcode | congruence].
Qed.

(** X6. The listing query, the download-URL mutation and the directory
    lookup write nothing, whatever they return. *)
Theorem reads_write_nothing (env : Env) (ctx : Context)
    (assetId email : jsstring) (after first : option Z)
    (q : option jsstring) :
  never_writes (myAssets ilike env after first q ctx) /\
  never_writes (getDownloadUrl signedUrl env assetId ctx) /\
  never_writes (findUserIdByEmail toLowerCase env email).
Proof.
  repeat split; intros w; unfold_run;
    unfold findUserIdByEmail, bind, listUsers, gets, ret;
    cases_of_goal; reflexivity.
Qed.

(** X7. What each mutation leaves alone, whatever it returns. None of
    them writes to the bucket or to the directory; createUploadUrl and
    finalizeUpload write no share row, shareAsset and revokeShare write
    no ticket, and deleteAsset, which deletes from the asset table only,
    writes neither to the tickets nor to the share rows of the asset it
    deletes. *)
Theorem mutation_frames (env : Env) (w : World) (ctx : Context)
    (assetId clientSha256 toEmail filename mime : jsstring)
    (size version : Z) (canDownload : bool) :
  let created :=
    snd (createUploadUrl normalizeNFKC signedUploadUrl env filename mime
                         size ctx w) in
  let finalized :=
    snd (finalizeUpload sha256_hex env assetId clientSha256 version ctx w) in
  let shared :=
    snd (shareAsset toLowerCase env assetId toEmail canDownload version
                    ctx w) in
  let revoked :=
    snd (revokeShare toLowerCase env assetId toEmail version ctx w) in
  let deleted := snd (deleteAsset env assetId version ctx w) in
  (forall w', In w' [created; finalized; shared; revoked; deleted] ->
     bucket_private w' = bucket_private w /\ auth_users w' = auth_users w) /\
  asset_share created = asset_share w /\
  asset_share finalized = asset_share w /\
  upload_ticket shared = upload_ticket w /\
  upload_ticket revoked = upload_ticket w /\
  upload_ticket deleted = upload_ticket w /\
  asset_share deleted = asset_share w.
Proof.
  cbv zeta.
  destruct (findUserIdByEmail_reads toLowerCase env toEmail w)
    as [found Hfind].
  split.
  - intros w' Hin. cbn [In] in Hin.
    destruct Hin as [<- | [<- | [<- | [<- | [<- | []]]]]];
      unfold_run; cases_of_goal; split;
      first [reflexivity | congruence].
  - repeat split; unfold_run; cases_of_goal;
      first [reflexivity | congruence].
Qed.

(** X8. Whatever finalizeUpload, shareAsset and revokeShare return, the
    asset table afterwards has the same rows in the same places: a row
    with another id is untouched, and the row of the asset keeps its id,
    owner, name, type, size, path and creation time, with its version the
    same or exactly one more. No call lowers a version or moves it by
    two. *)
Theorem rows_move_on (env : Env) (w : World) (ctx : Context)
    (assetId clientSha256 toEmail : jsstring) (version : Z)
    (canDownload : bool) :
  forall w' : World,
    In w' [snd (finalizeUpload sha256_hex env assetId clientSha256 version
                               ctx w);
           snd (shareAsset toLowerCase env assetId toEmail canDownload
                           version ctx w);
           snd (revokeShare toLowerCase env assetId toEmail version ctx w)] ->
    Forall2 (fun r r' => row_moves_on r r' /\
                         (asset_has_id assetId r = false -> r' = r))
            (asset w) (asset w').
Proof.
  intros w' Hin. cbn [In] in Hin.
  destruct (findUserIdByEmail_reads toLowerCase env toEmail w)
    as [found Hfind].
  destruct Hin as [<- | [<- | [<- | []]]];
    unfold_run; cases_of_goal;
    repeat match goal with
           | Hq : findUserIdByEmail _ _ _ w = (_, ?w0) |- _ =>
               assert (w0 = w) by congruence; subst w0; clear Hq
           end;
    try apply rows_unchanged;
    try congruence;
    (eapply rows_patched; [eassumption|]);
    match goal with
    | |- row_moves_on ?a _ =>
        try match goal with
            | Hv : negb (Asset.version a =? _) = false |- _ =>
                apply negb_false_iff, Z.eqb_eq in Hv; rewrite <- Hv
            end;
        destruct a; unfold row_moves_on; cbn; repeat split; lia
    end.
Qed.

(** X9. A finalize that finds no object marks the asset [corrupt] but
    leaves the ticket unused, so [corrupt] is not final: once the object
    is in the bucket (the tables being as the failed call left them), a
    second finalize with the same version and the right hash, before the
    ticket expires, returns the asset as [ready], one version up. *)
Theorem finalize_can_be_retried_after_a_missing_object
    (env env2 : Env) (w w2 : World) (ctx : Context)
    (uid assetId clientSha256 : jsstring) (a : Asset.row) (t : Ticket.row)
    (buffer : list Z) :
  authenticated ctx uid ->
  loads_asset env w assetId a ->
  Asset.owner_id a = uid ->
  loads_ticket env w assetId t ->
  Ticket.user_id t = uid ->
  Ticket.used t = false ->
  now env <= Ticket.expires_at t ->
  object_at (Ticket.storage_path t) (bucket_private w) = None ->
  fails env MarkCorrupt = false ->
  asset w2 = asset (with_asset_status corrupt assetId w) ->
  upload_ticket w2 = upload_ticket w ->
  object_at (Ticket.storage_path t) (bucket_private w2) = Some buffer ->
  sha256_hex buffer = clientSha256 ->
  now env2 <= Ticket.expires_at t ->
  (forall c, fails env2 c = false) ->
  finalizeUpload sha256_hex env assetId clientSha256 (Asset.version a) ctx w
    = (Throw ObjectMissing, with_asset_status corrupt assetId w) /\
  exists (n : Node.t) (w3 : World),
    finalizeUpload sha256_hex env2 assetId clientSha256 (Asset.version a)
                   ctx w2 = (Ok n, w3) /\
    Node.status n = ready /\
    Node.version n = Asset.version a + 1 /\
    Node.sha256 n = Some clientSha256.
Proof.
  intros Hauth Hload Hown Htick Huser Hused Hexp Hnone Hmark
         Hassets Htickets Hobj Hhash Hexp2 Hup.
  destruct (finalize_object_missing sha256_hex env w ctx uid assetId
              clientSha256 a t Hauth Hload Hown Htick Huser Hused Hexp
              (or_intror Hnone) Hmark) as (Hfirst & [_ Hcorrupt] & _).
  split; [exact Hfirst|].
  assert (Hload2 : loads_asset env2 w2 assetId (Asset.with_status corrupt a))
    by (split; [apply Hup | rewrite Hassets; exact Hcorrupt]).
  assert (Htick2 : loads_ticket env2 w2 assetId t)
    by (split; [apply Hup | rewrite Htickets; apply Htick]).
  pose proof (finalize_verifies sha256_hex env2 w2 ctx uid assetId
                clientSha256 (Asset.with_status corrupt a) t buffer
                Hauth Hload2 Hown Htick2 Huser Hused Hexp2 (Hup _) Hobj
                (Hup _)) as Hrun.
  cbv zeta in Hrun.
  rewrite Hhash, jsstring_eqb_refl in Hrun.
  do 2 eexists; split; [exact Hrun|].
  repeat split; reflexivity.
Qed.

(** X10. A finalize that ends in a hash mismatch uses the ticket up.
    From then on a finalize with the stored version returns the asset,
    still [corrupt], as a success and changes nothing, whatever hash is
    claimed, the right one included: a mismatch cannot be repaired by
    finalizing again. *)
Theorem mismatch_is_final (env : Env) (w : World) (ctx : Context)
    (uid assetId clientSha256 : jsstring) (a : Asset.row) (t : Ticket.row)
    (buffer : list Z) :
  authenticated ctx uid ->
  loads_asset env w assetId a ->
  Asset.owner_id a = uid ->
  loads_ticket env w assetId t ->
  Ticket.user_id t = uid ->
  Ticket.used t = false ->
  now env <= Ticket.expires_at t ->
  fails env DownloadObject = false ->
  object_at (Ticket.storage_path t) (bucket_private w) = Some buffer ->
  fails env UpdateAsset = false ->
  fails env UseTicket = false ->
  sha256_hex buffer <> clientSha256 ->
  exists (n : Node.t) (w' : World),
    finalizeUpload sha256_hex env assetId clientSha256 (Asset.version a)
                   ctx w = (Throw HashMismatch, w') /\
    Node.status n = corrupt /\
    Node.version n = Asset.version a + 1 /\
    forall (env2 : Env) (claimed : jsstring),
      fails env2 SelectAsset = false ->
      fails env2 SelectTicket = false ->
      finalizeUpload sha256_hex env2 assetId claimed (Asset.version a + 1)
                     ctx w' = (Ok n, w').
Proof.
  intros Hauth Hload Hown Htick Huser Hused Hexp Hdl Hobj Hupd Huse Hne.
  pose proof (finalize_verifies sha256_hex env w ctx uid assetId
                clientSha256 a t buffer Hauth Hload Hown Htick Huser Hused
                Hexp Hdl Hobj Hupd) as Hrun.
  cbv zeta in Hrun.
  assert (E : JS.eqb (sha256_hex buffer) clientSha256 = false).
  { destruct (JS.eqb (sha256_hex buffer) clientSha256) eqn:E;
      [apply jsstring_eqb_eq in E; contradiction | reflexivity]. }
  rewrite E in Hrun.
  unfold use_ticket, modify in Hrun; rewrite Huse in Hrun; cbn [snd] in Hrun.
  set (patch := finalize_patch (sha256_hex buffer) corrupt (Asset.version a)
                               (now env)) in *.
  exists (node_of (patch a)). eexists. split; [exact Hrun|].
  split; [reflexivity|]. split; [reflexivity|].
  intros env2 claimed Hfa Hft.
  apply (finalize_used_ticket sha256_hex env2 _ ctx uid assetId claimed
           (patch a) (Ticket.with_used true t)); try assumption.
  - split; [assumption|]. cbn [asset set_asset set_upload_ticket].
    apply single_patch_assets; [intros []; reflexivity | apply Hload].
  - split; [assumption|]. cbn [upload_ticket set_asset set_upload_ticket].
    apply single_use_ticket; apply Htick.
  - reflexivity.
Qed.

(** The directory lookup depends on the directory and on nothing else of
    the state. *)
Lemma findUserIdByEmail_same_directory (env : Env) (email : jsstring)
    (w w1 : World) (r : option jsstring) :
  auth_users w1 = auth_users w ->
  findUserIdByEmail toLowerCase env email w = (Ok r, w) ->
  findUserIdByEmail toLowerCase env email w1 = (Ok r, w1).
Proof.
  intros Hsame. unfold findUserIdByEmail, bind, listUsers, gets, ret.
  rewrite Hsame. destruct (fails env ListUsers); intros E;
    injection E as <-; reflexivity.
Qed.

(** A share to somebody else, run. *)
Lemma share_run (env : Env) (w : World) (ctx : Context)
    (uid assetId toEmail toUserId : jsstring) (canDownload : bool)
    (a : Asset.row) :
  authenticated ctx uid ->
  loads_asset env w assetId a ->
  Asset.owner_id a = uid ->
  findUserIdByEmail toLowerCase env toEmail w = (Ok (Some toUserId), w) ->
  JS.truthy toUserId = true ->
  toUserId <> uid ->
  fails env UpsertShare = false ->
  fails env BumpVersion = false ->
  let r := Share.mk assetId toUserId canDownload in
  let key := share_has_key assetId toUserId in
  let patch := bump_patch (Asset.version a) (now env) in
  shareAsset toLowerCase env assetId toEmail canDownload (Asset.version a)
             ctx w
  = (Ok (node_of (patch a)),
     set_asset (patch_assets patch assetId (asset w))
       (set_asset_share
          (if existsb key (asset_share w)
           then map (fun s => if key s then r else s) (asset_share w)
           else asset_share w ++ [r]) w)).
Proof.
  intros Hauth Hload Hown Hfind Htruthy Hother Hups Hbump r key patch.
  unfold shareAsset; enter Hauth Hload.
  rewrite Hown, jsstring_eqb_refl, Z.eqb_refl; cbn [negb]; cbv beta iota.
  erewrite bind_ok by exact Hfind.
  destruct toUserId as [|c toUserId]; [discriminate Htruthy|].
  cbv beta iota.
  assert (Hne : JS.eqb (c :: toUserId) uid = false).
  { destruct (JS.eqb (c :: toUserId) uid) eqn:E; [|reflexivity].
    apply jsstring_eqb_eq in E; contradiction. }
  rewrite Hne.
  unfold bind at 1, upsert_share; rewrite Hups; cbn [negb].
  unfold bind, update_asset_single, ret; rewrite Hbump.
  cbn [asset set_asset_share Share.asset_id Share.to_user].
  destruct Hload as [_ Hs]; rewrite Hs. reflexivity.
Qed.

(** A revoke whose target resolves, run. *)
Lemma revoke_run (env : Env) (w : World) (ctx : Context)
    (uid assetId toEmail toUserId : jsstring) (a : Asset.row) :
  authenticated ctx uid ->
  loads_asset env w assetId a ->
  Asset.owner_id a = uid ->
  findUserIdByEmail toLowerCase env toEmail w = (Ok (Some toUserId), w) ->
  JS.truthy toUserId = true ->
  fails env DeleteShare = false ->
  fails env BumpVersion = false ->
  let patch := bump_patch (Asset.version a) (now env) in
  revokeShare toLowerCase env assetId toEmail (Asset.version a) ctx w
  = (Ok (node_of (patch a)),
     set_asset (patch_assets patch assetId (asset w))
       (set_asset_share (other_shares assetId toUserId (asset_share w)) w)).
Proof.
  intros Hauth Hload Hown Hfind Htruthy Hdel Hbump patch.
  unfold revokeShare; enter Hauth Hload.
  rewrite Hown, jsstring_eqb_refl, Z.eqb_refl; cbn [negb]; cbv beta iota.
  erewrite bind_ok by exact Hfind.
  destruct toUserId as [|c toUserId]; [discriminate Htruthy|].
  unfold bind at 1, delete_share, modify; rewrite Hdel.
  unfold bind, update_asset_single, ret; rewrite Hbump.
  cbn [asset set_asset_share].
  destruct Hload as [_ Hs]; rewrite Hs. reflexivity.
Qed.

(** X11. A share to another user leaves, for the pair (asset, target),
    only rows that carry the permission just asked for: one row if
    there was none, and the rows that were there, overwritten, otherwise.
    The rows of every other pair are as they were, and the asset comes
    back one version up. *)
Theorem share_overwrites_the_pair (env : Env) (w : World) (ctx : Context)
    (uid assetId toEmail toUserId : jsstring) (canDownload : bool)
    (a : Asset.row) :
  authenticated ctx uid ->
  loads_asset env w assetId a ->
  Asset.owner_id a = uid ->
  findUserIdByEmail toLowerCase env toEmail w = (Ok (Some toUserId), w) ->
  JS.truthy toUserId = true ->
  toUserId <> uid ->
  fails env UpsertShare = false ->
  fails env BumpVersion = false ->
  exists (n : Node.t) (w' : World),
    shareAsset toLowerCase env assetId toEmail canDownload (Asset.version a)
               ctx w = (Ok n, w') /\
    Node.version n = Asset.version a + 1 /\
    shares_for assetId toUserId (asset_share w')
      = repeat (Share.mk assetId toUserId canDownload)
               (Nat.max 1 (List.length
                             (shares_for assetId toUserId (asset_share w)))) /\
    other_shares assetId toUserId (asset_share w')
      = other_shares assetId toUserId (asset_share w).
Proof.
  intros Hauth Hload Hown Hfind Htruthy Hother Hups Hbump.
  pose proof (share_run env w ctx uid assetId toEmail toUserId canDownload a
                Hauth Hload Hown Hfind Htruthy Hother Hups Hbump) as Hrun.
  cbv zeta in Hrun.
  do 2 eexists; split; [exact Hrun|].
  split; [reflexivity|].
  cbn [asset_share set_asset set_asset_share].
  apply upsert_rows.
Qed.

(** X12. A revoke whose target resolves to a user deletes every share
    row of the pair (asset, target) and no other, and the asset comes
    back one version up. *)
Theorem revoke_clears_the_pair (env : Env) (w : World) (ctx : Context)
    (uid assetId toEmail toUserId : jsstring) (a : Asset.row) :
  authenticated ctx uid ->
  loads_asset env w assetId a ->
  Asset.owner_id a = uid ->
  findUserIdByEmail toLowerCase env toEmail w = (Ok (Some toUserId), w) ->
  JS.truthy toUserId = true ->
  fails env DeleteShare = false ->
  fails env BumpVersion = false ->
  exists (n : Node.t) (w' : World),
    revokeShare toLowerCase env assetId toEmail (Asset.version a) ctx w
      = (Ok n, w') /\
    Node.version n = Asset.version a + 1 /\
    shares_for assetId toUserId (asset_share w') = [] /\
    forall s : Share.row,
      In s (asset_share w') <->
      In s (asset_share w) /\ share_has_key assetId toUserId s = false.
Proof.
  intros Hauth Hload Hown Hfind Htruthy Hdel Hbump.
  pose proof (revoke_run env w ctx uid assetId toEmail toUserId a
                Hauth Hload Hown Hfind Htruthy Hdel Hbump) as Hrun.
  cbv zeta in Hrun.
  do 2 eexists; split; [exact Hrun|].
  split; [reflexivity|].
  cbn [asset_share set_asset set_asset_share].
  unfold shares_for, other_shares. split.
  - apply filter_off.
  - intros s. rewrite filter_In, negb_true_iff. reflexivity.
Qed.

(** X13. A revoke reports success, one version up, also when nothing was
    revoked: when the e-mail resolves to no user (or the directory does
    not answer), and when the delete of the share rows fails, the share
    rows are all still there. *)
Theorem revoke_succeeds_without_revoking (env : Env) (w : World)
    (ctx : Context) (uid assetId toEmail : jsstring) (a : Asset.row) :
  authenticated ctx uid ->
  loads_asset env w assetId a ->
  Asset.owner_id a = uid ->
  fails env BumpVersion = false ->
  findUserIdByEmail toLowerCase env toEmail w = (Ok None, w) \/
  fails env DeleteShare = true ->
  exists (n : Node.t) (w' : World),
    revokeShare toLowerCase env assetId toEmail (Asset.version a) ctx w
      = (Ok n, w') /\
    Node.version n = Asset.version a + 1 /\
    asset_share w' = asset_share w.
Proof.
  intros Hauth Hload Hown Hbump Hnothing.
  destruct (findUserIdByEmail_reads toLowerCase env toEmail w)
    as [found Hfind].
  unfold revokeShare; enter Hauth Hload.
  rewrite Hown, jsstring_eqb_refl, Z.eqb_refl; cbn [negb]; cbv beta iota.
  erewrite bind_ok by exact Hfind.
  assert (Hdel : (match found with
                  | None | Some [] => ret tt
                  | Some toUserId => delete_share env assetId toUserId
                  end) w = (Ok tt, w)).
  { destruct Hnothing as [Hnone | Hdel].
    - rewrite Hnone in Hfind; injection Hfind as <-; reflexivity.
    - destruct found as [[|c u]|]; try reflexivity.
      unfold delete_share, modify; rewrite Hdel; reflexivity. }
  erewrite bind_ok by exact Hdel.
  unfold bind, update_asset_single, ret; rewrite Hbump.
  destruct Hload as [_ Hs]; rewrite Hs.
  do 2 eexists; split; [reflexivity|]. split; reflexivity.
Qed.

(** X14. A share followed by a revoke of the same user, made with the
    version that the share returned, leaves no share row for the pair,
    leaves the rows of every other pair as they were before the share,
    and returns the asset two versions up. *)
Theorem share_then_revoke (env env2 : Env) (w : World) (ctx : Context)
    (uid assetId toEmail toUserId : jsstring) (canDownload : bool)
    (a : Asset.row) :
  authenticated ctx uid ->
  loads_asset env w assetId a ->
  Asset.owner_id a = uid ->
  findUserIdByEmail toLowerCase env toEmail w = (Ok (Some toUserId), w) ->
  JS.truthy toUserId = true ->
  toUserId <> uid ->
  fails env UpsertShare = false ->
  fails env BumpVersion = false ->
  fails env2 SelectAsset = false ->
  findUserIdByEmail toLowerCase env2 toEmail w = (Ok (Some toUserId), w) ->
  fails env2 DeleteShare = false ->
  fails env2 BumpVersion = false ->
  exists (n1 n2 : Node.t) (w1 w2 : World),
    shareAsset toLowerCase env assetId toEmail canDownload (Asset.version a)
               ctx w = (Ok n1, w1) /\
    revokeShare toLowerCase env2 assetId toEmail (Node.version n1) ctx w1
      = (Ok n2, w2) /\
    Node.version n2 = Asset.version a + 2 /\
    shares_for assetId toUserId (asset_share w2) = [] /\
    other_shares assetId toUserId (asset_share w2)
      = other_shares assetId toUserId (asset_share w).
Proof.
  intros Hauth Hload Hown Hfind Htruthy Hother Hups Hbump
         Hsel2 Hfind2 Hdel2 Hbump2.
  pose proof (share_run env w ctx uid assetId toEmail toUserId canDownload a
                Hauth Hload Hown Hfind Htruthy Hother Hups Hbump) as Hrun.
  cbv zeta in Hrun.
  set (patch := bump_patch (Asset.version a) (now env)) in *.
  match type of Hrun with _ = (_, ?x) => set (w1 := x) in * end.
  assert (Hload1 : loads_asset env2 w1 assetId (patch a)).
  { split; [exact Hsel2|]. unfold w1; cbn [asset set_asset].
    apply single_patch_assets; [intros []; reflexivity | apply Hload]. }
  assert (Hfind1 : findUserIdByEmail toLowerCase env2 toEmail w1
                   = (Ok (Some toUserId), w1))
    by (apply (findUserIdByEmail_same_directory env2 toEmail w w1);
        [reflexivity | exact Hfind2]).
  pose proof (revoke_run env2 w1 ctx uid assetId toEmail toUserId (patch a)
                Hauth Hload1 Hown Hfind1 Htruthy Hdel2 Hbump2) as Hrun2.
  cbv zeta in Hrun2.
  do 4 eexists. split; [exact Hrun|]. split; [exact Hrun2|].
  split; [cbn; lia|].
  cbn [asset_share set_asset set_asset_share]. unfold w1.
  cbn [asset_share set_asset set_asset_share].
  split; [apply filter_off|].
  unfold other_shares. rewrite filter_filter_same.
  exact (proj2 (upsert_rows assetId toUserId canDownload (asset_share w))).
Qed.

(** X15. A delete by the owner with the stored version removes the rows
    with that id and no other. The resolver deletes from the asset table
    only: it leaves the upload ticket and the share rows of the deleted
    asset where they are. Afterwards the id is unknown: the download URL,
    a finalize and a second delete all throw "Asset not found". *)
Theorem delete_is_hard_and_shallow (env : Env) (w : World) (ctx : Context)
    (uid assetId : jsstring) (a : Asset.row) :
  authenticated ctx uid ->
  loads_asset env w assetId a ->
  Asset.owner_id a = uid ->
  fails env DeleteAsset = false ->
  exists w' : World,
    deleteAsset env assetId (Asset.version a) ctx w = (Ok true, w') /\
    (forall r, In r (asset w') <->
               In r (asset w) /\ asset_has_id assetId r = false) /\
    upload_ticket w' = upload_ticket w /\
    asset_share w' = asset_share w /\
    forall (env2 : Env) (clientSha256 : jsstring) (version : Z),
      getDownloadUrl signedUrl env2 assetId ctx w'
        = (Throw AssetNotFound, w') /\
      finalizeUpload sha256_hex env2 assetId clientSha256 version ctx w'
        = (Throw AssetNotFound, w') /\
      deleteAsset env2 assetId version ctx w' = (Throw AssetNotFound, w').
Proof.
  intros Hauth Hload Hown Hdel.
  unfold deleteAsset at 1; enter Hauth Hload.
  rewrite Hown, jsstring_eqb_refl, Z.eqb_refl; cbn [negb]; cbv beta iota.
  unfold bind, delete_asset, ret; rewrite Hdel; cbn [negb].
  eexists; split; [reflexivity|].
  cbn [asset upload_ticket asset_share set_asset].
  split; [intros r; rewrite filter_In, negb_true_iff; reflexivity|].
  do 2 (split; [reflexivity|]).
  intros env2 clientSha256 version.
  match goal with |- context [getDownloadUrl _ _ _ _ ?w1] =>
    assert (Hsel : select_asset env2 assetId w1 = (Ok None, w1)) end.
  { unfold select_asset, gets; cbn [asset set_asset].
    rewrite filter_off. destruct (fails env2 SelectAsset); reflexivity. }
  repeat split;
    [ unfold getDownloadUrl | unfold finalizeUpload | unfold deleteAsset ];
    erewrite bind_ok by (apply requireUser_ok; exact Hauth);
    erewrite bind_ok by exact Hsel; reflexivity.
Qed.

(** X16. createUploadUrl does not undo what it has written. When the
    ticket insert fails the call throws a bad request and the asset row
    it has just inserted stays, in [uploading] status at version 1 and
    without a ticket; when the signing fails the asset row and its unused
    ticket both stay. *)
Theorem upload_rows_are_not_rolled_back (env : Env) (w : World)
    (ctx : Context) (uid filename mime : jsstring) (size : Z) :
  authenticated ctx uid ->
  media_type mime ->
  0 < size <= 30 * 1024 * 1024 ->
  existsb (asset_has_id (randomUUID env)) (asset w) = false ->
  fails env InsertAsset = false ->
  fails env InsertTicket = true \/ fails env SignUpload = true ->
  exists (msg : string) (a : Asset.row) (w' : World),
    createUploadUrl normalizeNFKC signedUploadUrl env filename mime size
                    ctx w = (Throw (mkError msg BAD_REQUEST), w') /\
    asset w' = asset w ++ [a] /\
    Asset.id a = randomUUID env /\
    Asset.owner_id a = uid /\
    Asset.status a = uploading /\
    Asset.version a = 1 /\
    (fails env InsertTicket = true -> upload_ticket w' = upload_ticket w) /\
    (fails env InsertTicket = false ->
     exists t : Ticket.row,
       upload_ticket w' = upload_ticket w ++ [t] /\
       Ticket.asset_id t = randomUUID env /\
       Ticket.used t = false).
Proof.
  intros Hauth Hmime [Hpos Hmax] Hfresh Hia Hfail.
  apply isMimeAllowed_media_type in Hmime.
  unfold createUploadUrl.
  erewrite bind_ok by (apply requireUser_ok; exact Hauth).
  rewrite Hmime; cbn [negb]; cbv beta iota.
  assert (Hsz : (size <=? 0) || (MAX_SIZE_BYTES <? size) = false).
  { apply orb_false_iff; split;
      [apply Z.leb_gt | apply Z.ltb_ge; unfold MAX_SIZE_BYTES]; lia. }
  rewrite Hsz; cbv beta iota zeta.
  unfold bind at 1, insert_asset; rewrite Hia, Hfresh; cbn [negb].
  unfold bind at 1, insert_ticket.
  destruct (fails env InsertTicket) eqn:Hit; cbn [negb].
  - do 3 eexists; split; [reflexivity|].
    cbn. repeat split; try reflexivity. discriminate.
  - destruct Hfail as [Hfail | Hsu]; [discriminate Hfail|].
    unfold bind, createSignedUploadUrl, ret; rewrite Hsu.
    do 3 eexists; split; [reflexivity|].
    cbn. repeat split; try reflexivity; try discriminate.
    intros _; eexists; repeat split; reflexivity.
Qed.

(** X17. The whole upload. After a createUploadUrl that succeeded (for a
    fresh id that has no ticket yet), once an object is at the storage
    path that the call returned, a finalize of the returned asset id at
    version 1 with the hash of that object returns the asset [ready] at
    version 2, under its sanitised name and with the size that was
    declared, whatever the length of the object, provided the clock has
    not passed the returned expiry (five minutes after the request); past
    the expiry the same finalize throws "Ticket expired". *)
Theorem upload_then_finalize (env : Env) (w : World) (ctx : Context)
    (uid filename mime : jsstring) (size : Z) :
  authenticated ctx uid ->
  media_type mime ->
  0 < size <= 30 * 1024 * 1024 ->
  existsb (asset_has_id (randomUUID env)) (asset w) = false ->
  filter (ticket_of_asset (randomUUID env)) (upload_ticket w) = [] ->
  fails env InsertAsset = false ->
  fails env InsertTicket = false ->
  fails env SignUpload = false ->
  exists (r : UploadUrl.t) (w1 : World),
    createUploadUrl normalizeNFKC signedUploadUrl env filename mime size
                    ctx w = (Ok r, w1) /\
    UploadUrl.expiresAt r = now env + 300000 /\
    forall (env2 : Env) (w2 : World) (buffer : list Z),
      asset w2 = asset w1 ->
      upload_ticket w2 = upload_ticket w1 ->
      object_at (UploadUrl.storagePath r) (bucket_private w2)
        = Some buffer ->
      (forall c, fails env2 c = false) ->
      (now env2 <= UploadUrl.expiresAt r ->
       exists (n : Node.t) (w3 : World),
         finalizeUpload sha256_hex env2 (UploadUrl.assetId r)
                        (sha256_hex buffer) 1 ctx w2 = (Ok n, w3) /\
         Node.status n = ready /\
         Node.version n = 2 /\
         Node.sha256 n = Some (sha256_hex buffer) /\
         Node.filename n = safeFilename normalizeNFKC filename /\
         Node.size n = size) /\
      (UploadUrl.expiresAt r < now env2 ->
       finalizeUpload sha256_hex env2 (UploadUrl.assetId r)
                      (sha256_hex buffer) 1 ctx w2
         = (Throw TicketExpired, w2)).
Proof.
  intros Hauth Hmime [Hpos Hmax] Hfresh Hnoticket Hia Hit Hsu.
  apply isMimeAllowed_media_type in Hmime.
  unfold createUploadUrl.
  erewrite bind_ok by (apply requireUser_ok; exact Hauth).
  rewrite Hmime; cbn [negb]; cbv beta iota.
  assert (Hsz : (size <=? 0) || (MAX_SIZE_BYTES <? size) = false).
  { apply orb_false_iff; split;
      [apply Z.leb_gt | apply Z.ltb_ge; unfold MAX_SIZE_BYTES]; lia. }
  rewrite Hsz; cbv beta iota zeta.
  unfold bind at 1, insert_asset; rewrite Hia, Hfresh; cbn [negb].
  unfold bind at 1, insert_ticket; rewrite Hit; cbn [negb].
  unfold bind, createSignedUploadUrl, ret; rewrite Hsu.
  do 2 eexists; split; [reflexivity|].
  cbn [UploadUrl.expiresAt UploadUrl.storagePath UploadUrl.assetId].
  split; [reflexivity|].
  intros env2 w2 buffer Hassets Htickets Hobj Hup.
  cbn [asset upload_ticket set_asset set_upload_ticket] in Hassets, Htickets.
  match type of Hassets with _ = _ ++ [?x] => set (a := x) in * end.
  match type of Htickets with _ = _ ++ [?x] => set (t := x) in * end.
  assert (Hload : loads_asset env2 w2 (randomUUID env) a).
  { split; [apply Hup|]. rewrite Hassets, filter_app.
    rewrite (existsb_false_filter _ _ Hfresh). cbn [filter app].
    unfold asset_has_id at 1, a; cbn [Asset.id].
    rewrite jsstring_eqb_refl. reflexivity. }
  assert (Htick : loads_ticket env2 w2 (randomUUID env) t).
  { split; [apply Hup|]. rewrite Htickets, filter_app, Hnoticket.
    cbn [filter app].
    unfold ticket_of_asset at 1, t; cbn [Ticket.asset_id].
    rewrite jsstring_eqb_refl. reflexivity. }
  split.
  - intros Hexp.
    pose proof (finalize_verifies sha256_hex env2 w2 ctx uid
                  (randomUUID env) (sha256_hex buffer) a t buffer
                  Hauth Hload eq_refl Htick eq_refl eq_refl Hexp (Hup _)
                  Hobj (Hup _)) as Hrun.
    cbv zeta in Hrun. rewrite jsstring_eqb_refl in Hrun.
    do 2 eexists; split; [exact Hrun|].
    repeat split; reflexivity.
  - intros Hexp.
    unfold finalizeUpload; enter Hauth Hload.
    change (Asset.owner_id a) with uid.
    rewrite jsstring_eqb_refl; cbn [negb]; cbv beta iota.
    change (Asset.version a =? 1) with true; cbn [negb]; cbv beta iota.
    erewrite bind_ok by (apply select_ticket_ok; exact Htick).
    cbv beta iota. change (Ticket.user_id t) with uid.
    rewrite jsstring_eqb_refl; cbn [negb]; cbv beta iota.
    change (Ticket.used t) with false; cbv beta iota.
    apply Z.ltb_lt in Hexp.
    change (Ticket.expires_at t) with (now env + 5 * 60 * 1000).
    rewrite Hexp. reflexivity.
Qed.

(** X18. The directory lookup sees the first 200 entries of the
    directory and no more. An id it returns is the id of an entry among
    those 200 whose e-mail matches, letter case apart; and when none of
    those 200 matches it returns [null], whoever comes after them. *)
Theorem directory_lookup_sees_200 (env : Env) (email : jsstring)
    (w : World) :
  (forall id : jsstring,
     fst (findUserIdByEmail toLowerCase env email w) = Ok (Some id) ->
     exists u : User.row,
       In u (firstn 200 (auth_users w)) /\
       User.id u = id /\
       email_matches toLowerCase email u) /\
  ((forall u, In u (firstn 200 (auth_users w)) ->
              ~ email_matches toLowerCase email u) ->
   findUserIdByEmail toLowerCase env email w = (Ok None, w)).
Proof.
  unfold findUserIdByEmail, bind, listUsers, gets, ret.
  change (skipn ((1 - 1) * 200) (auth_users w)) with (auth_users w).
  destruct (fails env ListUsers).
  - split; [intros id E; discriminate E | reflexivity].
  - set (visible := firstn 200 (auth_users w)).
    set (test := fun u : User.row =>
                   match User.email u with
                   | Some e => JS.eqb (toLowerCase e) (toLowerCase email)
                   | None => false
                   end).
    destruct (find test visible) as [u|] eqn:Hf; cbn [option_map fst].
    + apply find_some in Hf. destruct Hf as [Hin Htest].
      assert (Hm : email_matches toLowerCase email u).
      { unfold test in Htest. destruct (User.email u) as [e|] eqn:He;
          [|discriminate].
        exists e; split; [exact He | apply jsstring_eqb_eq; exact Htest]. }
      split.
      * intros id E; injection E as <-. exists u; auto.
      * intros Hnone. destruct (Hnone u Hin Hm).
    + split; [intros id E; discriminate E | reflexivity].
Qed.

(** The page of a listing that the store answers. *)
Lemma myAssets_run (env : Env) (w : World) (ctx : Context) (uid : jsstring)
    (after first : option Z) (q : option jsstring) :
  authenticated ctx uid ->
  fails env ListAssets = false ->
  let limit := page_limit first in
  let sorted := order_created_at_desc (matching_assets ilike after q w) in
  let slice := firstn (Z.to_nat limit) sorted in
  myAssets ilike env after first q ctx w
  = (Ok (mkConnection
           (map (fun r => mkEdge (Asset.created_at r) (node_of r)) slice)
           (mkPageInfo
              (option_map Asset.created_at
                          (nth_error slice (List.length slice - 1)))
              (Z.to_nat limit <? List.length sorted)%nat)),
     w).
Proof.
  intros Hauth Hlist limit sorted slice.
  pose proof (page_limit_range first) as Hrange.
  unfold myAssets.
  erewrite bind_ok by (apply requireUser_ok; exact Hauth).
  cbv zeta. unfold bind at 1, list_assets, gets. rewrite Hlist.
  fold limit. fold sorted.
  replace (Z.to_nat (limit + 1)) with (S (Z.to_nat limit)) by lia.
  destruct (overfetch (Z.to_nat limit) sorted) as [Hslice Hmore].
  cbv zeta in Hslice, Hmore.
  assert (Hltb : (limit <? Z.of_nat (List.length
                                       (firstn (S (Z.to_nat limit)) sorted)))
                 = (Z.to_nat limit
                    <? List.length (firstn (S (Z.to_nat limit)) sorted))%nat).
  { destruct (Nat.ltb_spec (Z.to_nat limit)
                (List.length (firstn (S (Z.to_nat limit)) sorted)));
      [apply Z.ltb_lt | apply Z.ltb_ge]; lia. }
  rewrite Hltb, Hslice. fold slice.
  unfold ret. do 4 f_equal.
  destruct (Z.to_nat limit <? List.length sorted)%nat eqn:E.
  - apply (proj2 Hmore). apply Nat.ltb_lt. exact E.
  - destruct (Z.to_nat limit
              <? List.length (firstn (S (Z.to_nat limit)) sorted))%nat eqn:E';
      [|reflexivity].
    apply Nat.ltb_ge in E. pose proof (proj1 Hmore eq_refl). lia.
Qed.

(** X19. In a listing that the store answers, the edges come newest
    first; every edge is a stored row that passes the filters, shown
    under its creation time as cursor; and with a cursor [after] every
    edge is strictly older than [after]. *)
Theorem listing_is_ordered (env : Env) (w : World) (ctx : Context)
    (uid : jsstring) (after first : option Z) (q : option jsstring) :
  authenticated ctx uid ->
  fails env ListAssets = false ->
  exists c : Connection,
    myAssets ilike env after first q ctx w = (Ok c, w) /\
    StronglySorted newer_first (edges c) /\
    forall e : Edge,
      In e (edges c) ->
      (exists r : Asset.row,
         In r (asset w) /\ q_filter ilike q r = true /\
         node e = node_of r /\ cursor e = Asset.created_at r) /\
      (forall t, after = Some t -> cursor e < t).
Proof.
  intros Hauth Hlist.
  pose proof (myAssets_run env w ctx uid after first q Hauth Hlist) as Hrun.
  cbv zeta in Hrun.
  eexists; split; [exact Hrun|]. cbn [edges].
  split.
  - apply StronglySorted_map. unfold newer_first; cbn [cursor].
    apply StronglySorted_firstn, order_created_at_desc_sorted.
  - intros e Hin. apply in_map_iff in Hin. destruct Hin as (r & <- & Hr).
    apply firstn_In in Hr.
    apply (proj1 (order_created_at_desc_In _ _)) in Hr.
    unfold matching_assets in Hr. apply filter_In in Hr.
    destruct Hr as [Hr Hpass]. apply andb_true_iff in Hpass.
    destruct Hpass as [Hafter Hq].
    split.
    + exists r; repeat split; assumption.
    + intros t E. rewrite E in Hafter. cbn [cursor]. apply Z.ltb_lt.
      exact Hafter.
Qed.

Lemma slice_rows (n : nat) (after : option Z) (q : option jsstring)
    (w : World) (r : Asset.row) :
  In r (firstn n (order_created_at_desc (matching_assets ilike after q w))) ->
  In r (asset w) /\ after_filter after r = true /\ q_filter ilike q r = true.
Proof.
  intros Hr. apply firstn_In in Hr.
  apply (proj1 (order_created_at_desc_In _ _)) in Hr.
  unfold matching_assets in Hr. apply filter_In in Hr.
  destruct Hr as [Hr Hpass]. apply andb_true_iff in Hpass.
  destruct Hpass as [Hafter Hq]. repeat split; assumption.
Qed.

(** X20. Following the cursor. A page has no end cursor exactly when it
    has no edge; otherwise the end cursor is the cursor of the last edge,
    which is the oldest of the page. The page asked for with that cursor
    as [after] (same search text, any page size) has only edges strictly
    older than every edge of this page: no row is listed twice. A row
    created at exactly the same time as the last edge is not among
    them. *)
Theorem following_the_cursor (env env2 : Env) (w : World) (ctx : Context)
    (uid : jsstring) (after first first2 : option Z) (q : option jsstring) :
  authenticated ctx uid ->
  fails env ListAssets = false ->
  fails env2 ListAssets = false ->
  exists c1 : Connection,
    myAssets ilike env after first q ctx w = (Ok c1, w) /\
    (endCursor (pageInfo c1) = None <-> edges c1 = []) /\
    forall t : Z,
      endCursor (pageInfo c1) = Some t ->
      (exists (before : list Edge) (e : Edge),
         edges c1 = before ++ [e] /\ cursor e = t) /\
      (forall e1, In e1 (edges c1) -> t <= cursor e1) /\
      exists c2 : Connection,
        myAssets ilike env2 (Some t) first2 q ctx w = (Ok c2, w) /\
        forall e1 e2 : Edge,
          In e1 (edges c1) -> In e2 (edges c2) ->
          cursor e2 < t /\ cursor e2 < cursor e1.
Proof.
  intros Hauth Hlist Hlist2.
  pose proof (myAssets_run env w ctx uid after first q Hauth Hlist) as Hrun.
  cbv zeta in Hrun.
  set (slice := firstn (Z.to_nat (page_limit first))
                  (order_created_at_desc (matching_assets ilike after q w)))
    in *.
  assert (Hsorted : StronglySorted
                      (fun r1 r2 => Asset.created_at r2 <= Asset.created_at r1)
                      slice)
    by apply StronglySorted_firstn, order_created_at_desc_sorted.
  eexists; split; [exact Hrun|].
  cbn [edges pageInfo endCursor].
  pose proof (last_nth_error slice) as Hlast.
  destruct (nth_error slice (List.length slice - 1)) as [x|];
    cbn [option_map].
  - destruct Hlast as [rest Hrest]. split.
    + split; [discriminate|]. rewrite Hrest, map_app.
      intros E; apply app_eq_nil in E; destruct E as [_ E]; discriminate E.
    + intros t E; injection E as <-.
      assert (Holdest : forall r, In r slice ->
                                  Asset.created_at x <= Asset.created_at r).
      { rewrite Hrest in Hsorted |- *.
        apply StronglySorted_last in Hsorted.
        rewrite Forall_forall in Hsorted.
        intros r Hr. apply in_app_or in Hr.
        destruct Hr as [Hr | [<- | []]]; [apply Hsorted; exact Hr | lia]. }
      split; [|split].
      * rewrite Hrest, map_app. do 2 eexists; split; reflexivity.
      * intros e1 Hin. apply in_map_iff in Hin.
        destruct Hin as (r & <- & Hr). cbn [cursor]. auto.
      * pose proof (myAssets_run env2 w ctx uid (Some (Asset.created_at x))
                      first2 q Hauth Hlist2) as Hrun2.
        cbv zeta in Hrun2.
        eexists; split; [exact Hrun2|]. cbn [edges].
        intros e1 e2 Hin1 Hin2.
        apply in_map_iff in Hin1, Hin2.
        destruct Hin1 as (r1 & <- & Hr1). destruct Hin2 as (r2 & <- & Hr2).
        apply slice_rows in Hr2. destruct Hr2 as (_ & Hafter & _).
        cbn [after_filter] in Hafter. apply Z.ltb_lt in Hafter.
        cbn [cursor]. pose proof (Holdest r1 Hr1). lia.
  - rewrite Hlast. split; [split; reflexivity | discriminate].
Qed.

(** X21. A search text made of white space only (the empty text
    included) is no filter: the listing is the one that the same query
    gives without [q]. *)
Theorem blank_q_is_no_filter (env : Env) (w : World) (ctx : Context)
    (after first : option Z) (s : jsstring) :
  (forall c, In c s -> JS.isWhiteSpace c = true) ->
  myAssets ilike env after first (Some s) ctx w
    = myAssets ilike env after first None ctx w.
Proof.
  intros Hwhite.
  assert (Htrim : JS.trim s = []).
  { unfold JS.trim. rewrite (trimStart_white s Hwhite). reflexivity. }
  assert (Hmatch : forall w0, matching_assets ilike after (Some s) w0
                              = matching_assets ilike after None w0).
  { intros w0. unfold matching_assets. apply filter_ext. intros r.
    f_equal. unfold q_filter. rewrite Htrim. cbn [List.length Z.of_nat].
    rewrite andb_false_r. reflexivity. }
  unfold myAssets, bind.
  destruct (requireUser ctx w) as [[uid|e] w0]; [|reflexivity].
  unfold list_assets, gets. rewrite Hmatch. reflexivity.
Qed.

(** X22. The MIME policy looks at the beginning of the type only: a
    type that is allowed stays allowed with anything appended to it
    (parameters, or any other text). *)
Theorem isMimeAllowed_extends (mime rest : jsstring) :
  isMimeAllowed mime = true -> isMimeAllowed (mime ++ rest) = true.
Proof.
  rewrite !isMimeAllowed_media_type. unfold media_type.
  rewrite !startsWith_app.
  intros [[x ->] | [[x ->] | [x ->]]]; [left | right; left | right; right];
    exists (x ++ rest); rewrite app_assoc; reflexivity.
Qed.

(** X23. A sanitised name has at most 200 code units. When NFKC leaves
    the name with its separators replaced as it is (a name that is
    already normalised, an ASCII name for one), the sanitised name is the
    first 200 code units of that name and has no solidus and no reverse
    solidus in it. *)
Theorem safeFilename_of_a_normalised_name (filename : jsstring) :
  (List.length (safeFilename normalizeNFKC filename) <= 200)%nat /\
  (normalizeNFKC (replaceSeparators filename) = replaceSeparators filename ->
   safeFilename normalizeNFKC filename
     = firstn 200 (replaceSeparators filename) /\
   List.length (safeFilename normalizeNFKC filename)
     = Nat.min 200 (List.length filename) /\
   ~ In 47 (safeFilename normalizeNFKC filename) /\
   ~ In 92 (safeFilename normalizeNFKC filename)).
Proof.
  unfold safeFilename, JS.slice0. split; [apply firstn_le_length|].
  intros ->.
  assert (Hclean : forall c, In c (replaceSeparators filename) ->
                             c <> 47 /\ c <> 92).
  { unfold replaceSeparators. intros c Hin. apply in_map_iff in Hin.
    destruct Hin as (d & Hd & _).
    destruct (d =? 47) eqn:E1, (d =? 92) eqn:E2; cbn [orb] in Hd; lia. }
  split; [reflexivity|]. split.
  - rewrite length_firstn. unfold replaceSeparators.
    rewrite length_map. reflexivity.
  - split; intros Hin; apply firstn_In in Hin; apply Hclean in Hin; lia.
Qed.

End Around.

(* ------------------------------------------------------------------ *)
(** ** The protocol on the sample state *)

Import Sample.

Ltac evaluate :=
  repeat split;
  first [ reflexivity
        | vm_compute; reflexivity
        | vm_compute; intro; discriminate
        | lia ].

Lemma finalize_settles_the_asset_on_sample :
  (authenticated as_alice alice /\
   loads_asset (at_time 2000) uploaded (JS.str "a1") cat /\
   Asset.owner_id cat = alice /\
   loads_ticket (at_time 2000) uploaded (JS.str "a1") cat_ticket /\
   Ticket.user_id cat_ticket = alice /\
   Ticket.used cat_ticket = false /\
   now (at_time 2000) <= Ticket.expires_at cat_ticket /\
   fails (at_time 2000) DownloadObject = false /\
   object_at (Ticket.storage_path cat_ticket) (bucket_private uploaded)
     = Some cat_bytes /\
   fails (at_time 2000) UpdateAsset = false /\
   fails (at_time 2000) UseTicket = false) /\
  exists (a' : Asset.row) (t' : Ticket.row) (w' : World)
         (r : outcome Node.t),
    finalizeUpload digest (at_time 2000) (JS.str "a1") (JS.str "0000")
                   (Asset.version cat) as_alice uploaded = (r, w') /\
    loads_asset (at_time 2000) w' (JS.str "a1") a' /\
    loads_ticket (at_time 2000) w' (JS.str "a1") t' /\
    Asset.version a' = Asset.version cat + 1 /\
    Asset.sha256 a' = Some (digest cat_bytes) /\
    Ticket.used t' = true /\
    (digest cat_bytes = JS.str "0000" ->
       r = Ok (node_of a') /\ Asset.status a' = ready) /\
    (digest cat_bytes <> JS.str "0000" ->
       r = Throw HashMismatch /\ Asset.status a' = corrupt).
Proof.
  split; [evaluate|].
  apply (finalize_settles_the_asset digest (at_time 2000) uploaded as_alice
           alice (JS.str "a1") (JS.str "0000") cat cat_ticket cat_bytes);
    evaluate.
Defined.

(** C2, as stated, fails: the first finalize succeeds and bumps the
    version, and the second call with the very same arguments (version 1)
    is refused with the version conflict instead of returning the asset. *)
Lemma finalize_twice_same_arguments_conflicts :
  finalizeUpload digest (at_time 2000) (JS.str "a1") (digest cat_bytes) 1
                 as_alice uploaded
    = (Ok (node_of cat_ready), finalized) /\
  finalizeUpload digest (at_time 3000) (JS.str "a1") (digest cat_bytes) 1
                 as_alice finalized
    = (Throw VersionConflict, finalized) /\
  finalizeUpload digest (at_time 3000) (JS.str "a1") (digest cat_bytes) 1
                 as_alice finalized
    <> (Ok (node_of cat_ready), finalized).
Proof.
  split; [vm_compute; reflexivity|].
  split; [vm_compute; reflexivity|].
  vm_compute; intros E; discriminate E.
Qed.

Lemma finalize_again_on_sample :
  (finalizeUpload digest (at_time 2000) (JS.str "a1") (digest cat_bytes) 1
                  as_alice uploaded
     = (Ok (node_of cat_ready), finalized) /\
   fails (at_time 2000) UseTicket = false /\
   fails (read_only_at 3000) SelectAsset = false /\
   fails (read_only_at 3000) SelectTicket = false) /\
  finalizeUpload digest (read_only_at 3000) (JS.str "a1") (digest cat_bytes)
                 (Node.version (node_of cat_ready)) as_alice finalized
    = (Ok (node_of cat_ready), finalized).
Proof.
  split; [evaluate|].
  apply (finalize_again_returns_the_same digest (at_time 2000)
           (read_only_at 3000) uploaded finalized as_alice (JS.str "a1")
           (digest cat_bytes) 1);
    evaluate.
Defined.

(** C3 on the sample state whose object never reached the bucket: the
    finalize throws the integrity error "Object missing" and has written
    the asset row, whose status went from [uploading] to [corrupt], while
    its version is still 1 (and the ticket is still unused). *)
Theorem download_failure_keeps_the_version :
  finalizeUpload digest (at_time 2000) (JS.str "a1") (digest cat_bytes) 1
                 as_alice missing
    = (Throw ObjectMissing, with_asset_status corrupt (JS.str "a1") missing) /\
  asset missing = [cat] /\
  asset (with_asset_status corrupt (JS.str "a1") missing)
    = [Asset.with_status corrupt cat] /\
  Asset.status cat = uploading /\
  Asset.status (Asset.with_status corrupt cat) = corrupt /\
  Asset.version cat = 1 /\
  Asset.version (Asset.with_status corrupt cat) = 1 /\
  upload_ticket (with_asset_status corrupt (JS.str "a1") missing)
    = [cat_ticket].
Proof. evaluate. Qed.

Lemma stale_version_is_refused_on_sample :
  (authenticated as_alice alice /\
   loads_asset (at_time 2000) uploaded (JS.str "a1") cat /\
   Asset.owner_id cat = alice /\
   Asset.version cat <> 7) /\
  finalizeUpload digest (at_time 2000) (JS.str "a1") (digest cat_bytes) 7
                 as_alice uploaded
    = (Throw VersionConflict, uploaded) /\
  shareAsset ascii_lower (at_time 2000) (JS.str "a1")
             (JS.str "bob@example.com") true 7 as_alice uploaded
    = (Throw VersionConflict, uploaded) /\
  revokeShare ascii_lower (at_time 2000) (JS.str "a1")
              (JS.str "bob@example.com") 7 as_alice uploaded
    = (Throw VersionConflict, uploaded) /\
  deleteAsset (at_time 2000) (JS.str "a1") 7 as_alice uploaded
    = (Throw VersionConflict, uploaded).
Proof.
  split; [evaluate|].
  apply (stale_version_is_refused ascii_lower digest (at_time 2000) uploaded
           as_alice alice (JS.str "a1") (digest cat_bytes)
           (JS.str "bob@example.com") true cat 7);
    evaluate.
Defined.

Lemma expired_ticket_is_refused_on_sample :
  (authenticated as_alice alice /\
   loads_asset (at_time 400000) uploaded (JS.str "a1") cat /\
   Asset.owner_id cat = alice /\
   loads_ticket (at_time 400000) uploaded (JS.str "a1") cat_ticket /\
   Ticket.user_id cat_ticket = alice /\
   Ticket.used cat_ticket = false /\
   Ticket.expires_at cat_ticket < now (at_time 400000)) /\
  finalizeUpload digest (at_time 400000) (JS.str "a1") (digest cat_bytes)
                 (Asset.version cat) as_alice uploaded
    = (Throw TicketExpired, uploaded).
Proof.
  split; [evaluate|].
  apply (expired_ticket_is_refused digest (at_time 400000) uploaded as_alice
           alice (JS.str "a1") (digest cat_bytes) cat cat_ticket);
    evaluate.
Defined.

(** The two sides of the policy on the sample state: a 10-byte PNG is
    accepted and adds its rows; a text file is refused and adds none. *)
Lemma upload_policy_on_sample :
  (authenticated as_alice alice /\
   media_type (JS.str "image/png") /\
   0 < 10 <= 30 * 1024 * 1024 /\
   existsb (asset_has_id (randomUUID (at_time 2000))) (asset uploaded)
     = false /\
   fails (at_time 2000) InsertAsset = false /\
   fails (at_time 2000) InsertTicket = false /\
   fails (at_time 2000) SignUpload = false /\
   ~ media_type (JS.str "text/plain")) /\
  (exists (r : UploadUrl.t) (a : Asset.row) (t : Ticket.row) (w' : World),
     createUploadUrl fold_fullwidth signedUploadUrl (at_time 2000)
                     (JS.str "dog.png") (JS.str "image/png") 10
                     as_alice uploaded = (Ok r, w') /\
     asset w' = asset uploaded ++ [a] /\
     upload_ticket w' = upload_ticket uploaded ++ [t] /\
     asset_share w' = asset_share uploaded /\
     UploadUrl.assetId r = randomUUID (at_time 2000) /\
     Asset.id a = randomUUID (at_time 2000) /\
     Asset.owner_id a = alice /\
     Asset.mime a = JS.str "image/png" /\
     Asset.size a = 10 /\
     Asset.version a = 1 /\
     Asset.status a = uploading /\
     Ticket.asset_id t = randomUUID (at_time 2000) /\
     Ticket.used t = false) /\
  (exists msg : string,
     createUploadUrl fold_fullwidth signedUploadUrl (at_time 2000)
                     (JS.str "notes.txt") (JS.str "text/plain") 10
                     as_alice uploaded
     = (Throw (mkError msg BAD_REQUEST), uploaded)).
Proof.
  assert (Hauth : authenticated as_alice alice) by (split; reflexivity).
  assert (Hpng : media_type (JS.str "image/png")) by (left; reflexivity).
  assert (Htxt : ~ media_type (JS.str "text/plain"))
    by (intros [E | [E | E]]; vm_compute in E; discriminate E).
  split; [|split].
  - split; [exact Hauth|]. split; [exact Hpng|].
    split; [lia|]. repeat (split; [reflexivity|]). exact Htxt.
  - apply (upload_policy fold_fullwidth signedUploadUrl (at_time 2000)
             uploaded as_alice alice (JS.str "dog.png") (JS.str "image/png")
             10 Hauth);
      first [exact Hpng | lia | reflexivity].
  - apply (upload_policy fold_fullwidth signedUploadUrl (at_time 2000)
             uploaded as_alice alice (JS.str "notes.txt")
             (JS.str "text/plain") 10 Hauth).
    left; exact Htxt.
Defined.

(** The size bounds, run: an empty file and a file one byte above the
    ceiling are refused and add no row; a file at the ceiling is taken. *)
Lemma upload_size_examples :
  createUploadUrl fold_fullwidth signedUploadUrl (at_time 2000)
                  (JS.str "dog.png") (JS.str "image/png") 0
                  as_alice uploaded
    = (Throw (mkError "Invalid size" BAD_REQUEST), uploaded) /\
  createUploadUrl fold_fullwidth signedUploadUrl (at_time 2000)
                  (JS.str "dog.png") (JS.str "image/png") (31457280 + 1)
                  as_alice uploaded
    = (Throw (mkError "Invalid size" BAD_REQUEST), uploaded) /\
  exists r w',
    createUploadUrl fold_fullwidth signedUploadUrl (at_time 2000)
                    (JS.str "dog.png") (JS.str "image/png") 31457280
                    as_alice uploaded = (Ok r, w') /\
    List.length (asset w') = 2%nat.
Proof.
  split; [vm_compute; reflexivity|].
  split; [vm_compute; reflexivity|].
  do 2 eexists; split; [vm_compute; reflexivity | reflexivity].
Qed.

(** C7 on a name with a full-width solidus (U+FF0F) between two letters.
    The separators are replaced before the name is normalised; NFKC folds
    U+FF0F onto the solidus U+002F; so the sanitised name, and with it the
    storage path, has a path separator in it. *)
Theorem safeFilename_lets_a_folded_solidus_through
    (normalizeNFKC : jsstring -> jsstring) :
  normalizeNFKC [120; 65295; 121] = [120; 47; 121] ->
  safeFilename normalizeNFKC [120; 65295; 121] = JS.str "x/y" /\
  In 47 (safeFilename normalizeNFKC [120; 65295; 121]).
Proof.
  intros Hfold. unfold safeFilename. cbn [replaceSeparators map].
  change (if (120 =? 47) || (120 =? 92) then 95 else 120) with 120.
  change (if (65295 =? 47) || (65295 =? 92) then 95 else 65295) with 65295.
  change (if (121 =? 47) || (121 =? 92) then 95 else 121) with 121.
  rewrite Hfold. split; [reflexivity | right; left; reflexivity].
Qed.

Lemma safeFilename_on_fullwidth_solidus :
  fold_fullwidth [120; 65295; 121] = [120; 47; 121] /\
  safeFilename fold_fullwidth [120; 65295; 121] = JS.str "x/y" /\
  In 47 (safeFilename fold_fullwidth [120; 65295; 121]).
Proof.
  split; [reflexivity|].
  apply (safeFilename_lets_a_folded_solidus_through fold_fullwidth).
  reflexivity.
Defined.

(** The part of C7 that the code does keep: at most 200 code units. *)
Lemma safeFilename_length (normalizeNFKC : jsstring -> jsstring)
    (filename : jsstring) :
  (List.length (safeFilename normalizeNFKC filename) <= 200)%nat.
Proof. unfold safeFilename, JS.slice0. apply firstn_le_length. Qed.

(** Separators that are in the name as typed are replaced. *)
Lemma replaceSeparators_clean (filename : jsstring) :
  ~ In 47 (replaceSeparators filename) /\
  ~ In 92 (replaceSeparators filename).
Proof.
  unfold replaceSeparators; split; intros Hin; apply in_map_iff in Hin;
    destruct Hin as (c & Hc & _);
    destruct (c =? 47) eqn:E1, (c =? 92) eqn:E2; cbn [orb] in Hc; lia.
Qed.

(** C8, as stated, fails for a page size above 50: [first = 100] gives
    the page size 20, not 50. With 30 matching rows the query returns 20
    edges and announces a next page, where a page of 50 would have
    returned all 30 and announced none. *)
Lemma page_size_above_50_is_20 :
  page_limit (Some 100) = 20 /\
  page_limit (Some 100) <> 50 /\
  exists c : Connection,
    myAssets ilike (at_time 2000) None (Some 100) None as_alice (many 30)
      = (Ok c, many 30) /\
    List.length (edges c) = 20%nat /\
    hasNextPage (pageInfo c) = true /\
    List.length (matching_assets ilike None None (many 30)) = 30%nat.
Proof.
  split; [reflexivity|].
  split; [vm_compute; intros E; discriminate E|].
  eexists; split; [vm_compute; reflexivity|].
  evaluate.
Qed.

Lemma listing_page_on_sample :
  (authenticated as_alice alice /\
   fails (at_time 2000) ListAssets = false) /\
  exists (limit : Z) (c : Connection),
    myAssets ilike (at_time 2000) (Some 25) (Some 10) (Some (JS.str " F "))
             as_alice (many 30)
      = (Ok c, many 30) /\
    (forall n, Some 10 = Some n -> 1 <= n <= 50 -> limit = n) /\
    (forall n, Some 10 = Some n -> n < 1 \/ 50 < n -> limit = 20) /\
    (Some 10 = None -> limit = 20) /\
    map node (edges c)
      = map node_of
          (firstn (Z.to_nat limit)
             (order_created_at_desc
                (matching_assets ilike (Some 25) (Some (JS.str " F "))
                                 (many 30)))) /\
    Z.of_nat (List.length (edges c)) <= limit /\
    (hasNextPage (pageInfo c) = true
     <-> limit < Z.of_nat (List.length
                             (matching_assets ilike (Some 25)
                                              (Some (JS.str " F "))
                                              (many 30)))).
Proof.
  split; [evaluate|].
  apply (listing_page ilike (at_time 2000) (many 30) as_alice alice
           (Some 25) (Some 10) (Some (JS.str " F ")));
    evaluate.
Defined.

Lemma self_share_is_a_no_op_on_sample :
  (authenticated as_alice alice /\
   loads_asset (at_time 2000) uploaded (JS.str "a1") cat /\
   Asset.owner_id cat = alice /\
   findUserIdByEmail ascii_lower (at_time 2000) (JS.str "alice@example.COM")
                     uploaded
     = (Ok (Some alice), uploaded)) /\
  shareAsset ascii_lower (at_time 2000) (JS.str "a1")
             (JS.str "alice@example.COM") true (Asset.version cat)
             as_alice uploaded
    = (Ok (node_of cat), uploaded).
Proof.
  split; [evaluate|].
  apply (self_share_is_a_no_op ascii_lower (at_time 2000) uploaded as_alice
           alice (JS.str "a1") (JS.str "alice@example.COM") true cat);
    evaluate.
Defined.

Lemma download_url_ignores_status_on_sample :
  (authenticated as_alice alice /\
   loads_asset (at_time 2000) missing (JS.str "a1") cat /\
   Asset.owner_id cat = alice /\
   fails (at_time 2000) SignRead = false) /\
  getDownloadUrl signedUrl (at_time 2000) (JS.str "a1") as_alice missing
    = (Ok (signedUrl (Asset.storage_path cat) 120), missing) /\
  getDownloadUrl signedUrl (at_time 2000) (JS.str "a1") as_alice
                 (with_asset_status corrupt (JS.str "a1") missing)
    = (Ok (signedUrl (Asset.storage_path cat) 120),
       with_asset_status corrupt (JS.str "a1") missing).
Proof.
  split; [evaluate|].
  apply (download_url_ignores_status signedUrl (at_time 2000) missing
           as_alice alice (JS.str "a1") cat corrupt);
    evaluate.
Defined.

(* ------------------------------------------------------------------ *)
(** ** Around the protocol, on the sample state *)

Ltac evaluated := first [evaluate | intros; evaluate].

Lemma createContext_identity_on_sample :
  userId (createContext verifier (JS.str "s3cret")
            (mkRequest (Some (JS.str "Bearer t0k")))) = Some alice /\
  userId (createContext verifier (JS.str "s3cret")
            (mkRequest (Some (JS.str "bearer t0k")))) = None /\
  userId (createContext verifier (JS.str "s3cret") (mkRequest None)) = None.
Proof.
  split; [|split; reflexivity].
  apply (createContext_identity verifier (JS.str "s3cret")).
  exists (JS.str "t0k"), (mkPayload (ClaimString alice)).
  repeat split; [discriminate].
Defined.

Lemma anonymous_is_refused_on_sample :
  anonymous nobody /\
  myAssets ilike (at_time 2000) None None None nobody uploaded
    = (Throw Unauthenticated, uploaded) /\
  createUploadUrl fold_fullwidth signedUploadUrl (at_time 2000)
                  (JS.str "dog.png") (JS.str "image/png") 10 nobody uploaded
    = (Throw Unauthenticated, uploaded) /\
  finalizeUpload digest (at_time 2000) cat_id (digest cat_bytes) 1 nobody
                 uploaded
    = (Throw Unauthenticated, uploaded) /\
  shareAsset ascii_lower (at_time 2000) cat_id (JS.str "bob@example.com")
             true 1 nobody uploaded
    = (Throw Unauthenticated, uploaded) /\
  revokeShare ascii_lower (at_time 2000) cat_id (JS.str "bob@example.com")
              1 nobody uploaded
    = (Throw Unauthenticated, uploaded) /\
  deleteAsset (at_time 2000) cat_id 1 nobody uploaded
    = (Throw Unauthenticated, uploaded) /\
  getDownloadUrl signedUrl (at_time 2000) cat_id nobody uploaded
    = (Throw Unauthenticated, uploaded).
Proof.
  split; [left; reflexivity|].
  apply anonymous_is_refused. left; reflexivity.
Defined.

Lemma unknown_asset_is_not_found_on_sample :
  (authenticated as_alice alice /\
   filter (asset_has_id (JS.str "zz")) (asset uploaded) = []) /\
  finalizeUpload digest (at_time 2000) (JS.str "zz") (digest cat_bytes) 1
                 as_alice uploaded
    = (Throw AssetNotFound, uploaded) /\
  shareAsset ascii_lower (at_time 2000) (JS.str "zz")
             (JS.str "bob@example.com") true 1 as_alice uploaded
    = (Throw AssetNotFound, uploaded) /\
  revokeShare ascii_lower (at_time 2000) (JS.str "zz")
              (JS.str "bob@example.com") 1 as_alice uploaded
    = (Throw AssetNotFound, uploaded) /\
  deleteAsset (at_time 2000) (JS.str "zz") 1 as_alice uploaded
    = (Throw AssetNotFound, uploaded) /\
  getDownloadUrl signedUrl (at_time 2000) (JS.str "zz") as_alice uploaded
    = (Throw AssetNotFound, uploaded).
Proof.
  split; [evaluate|].
  apply unknown_asset_is_not_found with (uid := alice); evaluate.
Defined.

Lemma not_the_owner_is_forbidden_on_sample :
  (authenticated as_bob bob /\
   loads_asset (at_time 2000) shared cat_id cat /\
   Asset.owner_id cat <> bob /\
   In (Share.mk cat_id bob true) (asset_share shared)) /\
  finalizeUpload digest (at_time 2000) cat_id (digest cat_bytes) 1 as_bob
                 shared
    = (Throw Forbidden, shared) /\
  shareAsset ascii_lower (at_time 2000) cat_id (JS.str "bob@example.com")
             true 1 as_bob shared
    = (Throw Forbidden, shared) /\
  revokeShare ascii_lower (at_time 2000) cat_id (JS.str "bob@example.com")
              1 as_bob shared
    = (Throw Forbidden, shared) /\
  deleteAsset (at_time 2000) cat_id 1 as_bob shared
    = (Throw Forbidden, shared) /\
  getDownloadUrl signedUrl (at_time 2000) cat_id as_bob shared
    = (Throw Forbidden, shared).
Proof.
  split; [repeat split; try reflexivity;
          [vm_compute; intro; discriminate | left; reflexivity]|].
  apply not_the_owner_is_forbidden with (uid := bob) (a := cat); evaluate.
Defined.

Lemma rows_move_on_on_sample :
  In finalized
     [snd (finalizeUpload digest (at_time 2000) cat_id (digest cat_bytes) 1
                          as_alice uploaded);
      snd (shareAsset ascii_lower (at_time 2000) cat_id
                      (JS.str "bob@example.com") true 1 as_alice uploaded);
      snd (revokeShare ascii_lower (at_time 2000) cat_id
                       (JS.str "bob@example.com") 1 as_alice uploaded)] /\
  Forall2 (fun r r' => row_moves_on r r' /\
                       (asset_has_id cat_id r = false -> r' = r))
          (asset uploaded) (asset finalized).
Proof.
  assert (Hin : In finalized
     [snd (finalizeUpload digest (at_time 2000) cat_id (digest cat_bytes) 1
                          as_alice uploaded);
      snd (shareAsset ascii_lower (at_time 2000) cat_id
                      (JS.str "bob@example.com") true 1 as_alice uploaded);
      snd (revokeShare ascii_lower (at_time 2000) cat_id
                       (JS.str "bob@example.com") 1 as_alice uploaded)])
    by (left; vm_compute; reflexivity).
  split; [exact Hin|].
  exact (rows_move_on ascii_lower digest (at_time 2000) uploaded as_alice
           cat_id (digest cat_bytes) (JS.str "bob@example.com") 1 true
           finalized Hin).
Defined.

Lemma finalize_can_be_retried_on_sample :
  (authenticated as_alice alice /\
   loads_asset (at_time 2000) missing cat_id cat /\
   Asset.owner_id cat = alice /\
   loads_ticket (at_time 2000) missing cat_id cat_ticket /\
   Ticket.user_id cat_ticket = alice /\
   Ticket.used cat_ticket = false /\
   now (at_time 2000) <= Ticket.expires_at cat_ticket /\
   object_at (Ticket.storage_path cat_ticket) (bucket_private missing)
     = None /\
   fails (at_time 2000) MarkCorrupt = false /\
   asset reuploaded = asset (with_asset_status corrupt cat_id missing) /\
   upload_ticket reuploaded = upload_ticket missing /\
   object_at (Ticket.storage_path cat_ticket) (bucket_private reuploaded)
     = Some cat_bytes /\
   digest cat_bytes = digest cat_bytes /\
   now (at_time 3000) <= Ticket.expires_at cat_ticket /\
   (forall c, fails (at_time 3000) c = false)) /\
  finalizeUpload digest (at_time 2000) cat_id (digest cat_bytes)
                 (Asset.version cat) as_alice missing
    = (Throw ObjectMissing, with_asset_status corrupt cat_id missing) /\
  exists (n : Node.t) (w3 : World),
    finalizeUpload digest (at_time 3000) cat_id (digest cat_bytes)
                   (Asset.version cat) as_alice reuploaded = (Ok n, w3) /\
    Node.status n = ready /\
    Node.version n = Asset.version cat + 1 /\
    Node.sha256 n = Some (digest cat_bytes).
Proof.
  split; [repeat split; evaluated|].
  apply finalize_can_be_retried_after_a_missing_object
    with (uid := alice) (t := cat_ticket) (buffer := cat_bytes);
    evaluated.
Defined.

Lemma mismatch_is_final_on_sample :
  (authenticated as_alice alice /\
   loads_asset (at_time 2000) uploaded cat_id cat /\
   Asset.owner_id cat = alice /\
   loads_ticket (at_time 2000) uploaded cat_id cat_ticket /\
   Ticket.user_id cat_ticket = alice /\
   Ticket.used cat_ticket = false /\
   now (at_time 2000) <= Ticket.expires_at cat_ticket /\
   fails (at_time 2000) DownloadObject = false /\
   object_at (Ticket.storage_path cat_ticket) (bucket_private uploaded)
     = Some cat_bytes /\
   fails (at_time 2000) UpdateAsset = false /\
   fails (at_time 2000) UseTicket = false /\
   digest cat_bytes <> JS.str "0000") /\
  exists (n : Node.t) (w' : World),
    finalizeUpload digest (at_time 2000) cat_id (JS.str "0000")
                   (Asset.version cat) as_alice uploaded
      = (Throw HashMismatch, w') /\
    Node.status n = corrupt /\
    Node.version n = Asset.version cat + 1 /\
    forall (env2 : Env) (claimed : jsstring),
      fails env2 SelectAsset = false ->
      fails env2 SelectTicket = false ->
      finalizeUpload digest env2 cat_id claimed (Asset.version cat + 1)
                     as_alice w' = (Ok n, w').
Proof.
  split; [evaluate|].
  apply mismatch_is_final
    with (uid := alice) (t := cat_ticket) (buffer := cat_bytes);
    evaluate.
Defined.

Lemma share_overwrites_the_pair_on_sample :
  (authenticated as_alice alice /\
   loads_asset (at_time 2000) shared cat_id cat /\
   Asset.owner_id cat = alice /\
   findUserIdByEmail ascii_lower (at_time 2000) (JS.str "BOB@example.com")
                     shared = (Ok (Some bob), shared) /\
   JS.truthy bob = true /\
   bob <> alice /\
   fails (at_time 2000) UpsertShare = false /\
   fails (at_time 2000) BumpVersion = false) /\
  exists (n : Node.t) (w' : World),
    shareAsset ascii_lower (at_time 2000) cat_id (JS.str "BOB@example.com")
               false (Asset.version cat) as_alice shared = (Ok n, w') /\
    Node.version n = Asset.version cat + 1 /\
    shares_for cat_id bob (asset_share w')
      = repeat (Share.mk cat_id bob false)
               (Nat.max 1 (List.length
                             (shares_for cat_id bob (asset_share shared)))) /\
    other_shares cat_id bob (asset_share w')
      = other_shares cat_id bob (asset_share shared).
Proof.
  split; [evaluate|].
  apply share_overwrites_the_pair with (uid := alice); evaluate.
Defined.

Lemma revoke_clears_the_pair_on_sample :
  (authenticated as_alice alice /\
   loads_asset (at_time 2000) shared cat_id cat /\
   Asset.owner_id cat = alice /\
   findUserIdByEmail ascii_lower (at_time 2000) (JS.str "bob@example.com")
                     shared = (Ok (Some bob), shared) /\
   JS.truthy bob = true /\
   fails (at_time 2000) DeleteShare = false /\
   fails (at_time 2000) BumpVersion = false) /\
  exists (n : Node.t) (w' : World),
    revokeShare ascii_lower (at_time 2000) cat_id (JS.str "bob@example.com")
                (Asset.version cat) as_alice shared = (Ok n, w') /\
    Node.version n = Asset.version cat + 1 /\
    shares_for cat_id bob (asset_share w') = [] /\
    forall s : Share.row,
      In s (asset_share w') <->
      In s (asset_share shared) /\ share_has_key cat_id bob s = false.
Proof.
  split; [evaluate|].
  apply revoke_clears_the_pair with (uid := alice); evaluate.
Defined.

Lemma revoke_succeeds_without_revoking_on_sample :
  (authenticated as_alice alice /\
   loads_asset (at_time 2000) shared cat_id cat /\
   Asset.owner_id cat = alice /\
   fails (at_time 2000) BumpVersion = false /\
   (findUserIdByEmail ascii_lower (at_time 2000)
                      (JS.str "carol@example.com") shared
      = (Ok None, shared) \/
    fails (at_time 2000) DeleteShare = true)) /\
  exists (n : Node.t) (w' : World),
    revokeShare ascii_lower (at_time 2000) cat_id
                (JS.str "carol@example.com") (Asset.version cat) as_alice
                shared = (Ok n, w') /\
    Node.version n = Asset.version cat + 1 /\
    asset_share w' = asset_share shared.
Proof.
  split; [repeat split; try reflexivity; left; reflexivity|].
  apply revoke_succeeds_without_revoking with (uid := alice);
    try (left; reflexivity); evaluate.
Defined.

Lemma share_then_revoke_on_sample :
  (authenticated as_alice alice /\
   loads_asset (at_time 2000) uploaded cat_id cat /\
   Asset.owner_id cat = alice /\
   findUserIdByEmail ascii_lower (at_time 2000) (JS.str "bob@example.com")
                     uploaded = (Ok (Some bob), uploaded) /\
   JS.truthy bob = true /\
   bob <> alice /\
   fails (at_time 2000) UpsertShare = false /\
   fails (at_time 2000) BumpVersion = false /\
   fails (at_time 3000) SelectAsset = false /\
   findUserIdByEmail ascii_lower (at_time 3000) (JS.str "bob@example.com")
                     uploaded = (Ok (Some bob), uploaded) /\
   fails (at_time 3000) DeleteShare = false /\
   fails (at_time 3000) BumpVersion = false) /\
  exists (n1 n2 : Node.t) (w1 w2 : World),
    shareAsset ascii_lower (at_time 2000) cat_id (JS.str "bob@example.com")
               true (Asset.version cat) as_alice uploaded = (Ok n1, w1) /\
    revokeShare ascii_lower (at_time 3000) cat_id (JS.str "bob@example.com")
                (Node.version n1) as_alice w1 = (Ok n2, w2) /\
    Node.version n2 = Asset.version cat + 2 /\
    shares_for cat_id bob (asset_share w2) = [] /\
    other_shares cat_id bob (asset_share w2)
      = other_shares cat_id bob (asset_share uploaded).
Proof.
  split; [evaluate|].
  apply share_then_revoke with (uid := alice); evaluate.
Defined.

Lemma delete_is_hard_and_shallow_on_sample :
  (authenticated as_alice alice /\
   loads_asset (at_time 2000) shared cat_id cat /\
   Asset.owner_id cat = alice /\
   fails (at_time 2000) DeleteAsset = false) /\
  exists w' : World,
    deleteAsset (at_time 2000) cat_id (Asset.version cat) as_alice shared
      = (Ok true, w') /\
    (forall r, In r (asset w') <->
               In r (asset shared) /\ asset_has_id cat_id r = false) /\
    upload_ticket w' = upload_ticket shared /\
    asset_share w' = asset_share shared /\
    forall (env2 : Env) (clientSha256 : jsstring) (version : Z),
      getDownloadUrl signedUrl env2 cat_id as_alice w'
        = (Throw AssetNotFound, w') /\
      finalizeUpload digest env2 cat_id clientSha256 version as_alice w'
        = (Throw AssetNotFound, w') /\
      deleteAsset env2 cat_id version as_alice w'
        = (Throw AssetNotFound, w').
Proof.
  split; [evaluate|].
  apply delete_is_hard_and_shallow with (uid := alice); evaluate.
Defined.

Lemma upload_rows_are_not_rolled_back_on_sample :
  (authenticated as_alice alice /\
   media_type (JS.str "image/png") /\
   0 < 10 <= 30 * 1024 * 1024 /\
   existsb (asset_has_id (randomUUID (no_ticket_insert_at 2000)))
           (asset uploaded) = false /\
   fails (no_ticket_insert_at 2000) InsertAsset = false /\
   (fails (no_ticket_insert_at 2000) InsertTicket = true \/
    fails (no_ticket_insert_at 2000) SignUpload = true)) /\
  exists (msg : string) (a : Asset.row) (w' : World),
    createUploadUrl fold_fullwidth signedUploadUrl (no_ticket_insert_at 2000)
                    (JS.str "dog.png") (JS.str "image/png") 10
                    as_alice uploaded
      = (Throw (mkError msg BAD_REQUEST), w') /\
    asset w' = asset uploaded ++ [a] /\
    Asset.id a = randomUUID (no_ticket_insert_at 2000) /\
    Asset.owner_id a = alice /\
    Asset.status a = uploading /\
    Asset.version a = 1 /\
    (fails (no_ticket_insert_at 2000) InsertTicket = true ->
     upload_ticket w' = upload_ticket uploaded) /\
    (fails (no_ticket_insert_at 2000) InsertTicket = false ->
     exists t : Ticket.row,
       upload_ticket w' = upload_ticket uploaded ++ [t] /\
       Ticket.asset_id t = randomUUID (no_ticket_insert_at 2000) /\
       Ticket.used t = false).
Proof.
  assert (Hpng : media_type (JS.str "image/png")) by (left; reflexivity).
  split.
  - split; [split; reflexivity|]. split; [exact Hpng|]. split; [lia|].
    repeat (split; [reflexivity|]). left; reflexivity.
  - apply upload_rows_are_not_rolled_back with (uid := alice);
      first [exact Hpng | lia | left; reflexivity | split; reflexivity
            | reflexivity].
Defined.

Lemma upload_then_finalize_on_sample :
  (authenticated as_alice alice /\
   media_type (JS.str "image/png") /\
   0 < 10 <= 30 * 1024 * 1024 /\
   existsb (asset_has_id (randomUUID (at_time 2000))) (asset uploaded)
     = false /\
   filter (ticket_of_asset (randomUUID (at_time 2000)))
          (upload_ticket uploaded) = [] /\
   fails (at_time 2000) InsertAsset = false /\
   fails (at_time 2000) InsertTicket = false /\
   fails (at_time 2000) SignUpload = false) /\
  exists (r : UploadUrl.t) (w1 : World),
    createUploadUrl fold_fullwidth signedUploadUrl (at_time 2000)
                    (JS.str "dog.png") (JS.str "image/png") 10
                    as_alice uploaded = (Ok r, w1) /\
    UploadUrl.expiresAt r = now (at_time 2000) + 300000 /\
    forall (env2 : Env) (w2 : World) (buffer : list Z),
      asset w2 = asset w1 ->
      upload_ticket w2 = upload_ticket w1 ->
      object_at (UploadUrl.storagePath r) (bucket_private w2)
        = Some buffer ->
      (forall c, fails env2 c = false) ->
      (now env2 <= UploadUrl.expiresAt r ->
       exists (n : Node.t) (w3 : World),
         finalizeUpload digest env2 (UploadUrl.assetId r) (digest buffer) 1
                        as_alice w2 = (Ok n, w3) /\
         Node.status n = ready /\
         Node.version n = 2 /\
         Node.sha256 n = Some (digest buffer) /\
         Node.filename n = safeFilename fold_fullwidth (JS.str "dog.png") /\
         Node.size n = 10) /\
      (UploadUrl.expiresAt r < now env2 ->
       finalizeUpload digest env2 (UploadUrl.assetId r) (digest buffer) 1
                      as_alice w2
         = (Throw TicketExpired, w2)).
Proof.
  assert (Hpng : media_type (JS.str "image/png")) by (left; reflexivity).
  split.
  - split; [split; reflexivity|]. split; [exact Hpng|]. split; [lia|].
    repeat split; reflexivity.
  - apply upload_then_finalize with (uid := alice);
      first [exact Hpng | lia | split; reflexivity | reflexivity].
Defined.

Lemma directory_lookup_sees_200_on_sample :
  (forall u, In u (firstn 200 (auth_users uploaded)) ->
             ~ email_matches ascii_lower (JS.str "carol@example.com") u) /\
  findUserIdByEmail ascii_lower (at_time 2000) (JS.str "carol@example.com")
                    uploaded = (Ok None, uploaded) /\
  exists u : User.row,
    In u (firstn 200 (auth_users uploaded)) /\
    User.id u = bob /\
    email_matches ascii_lower (JS.str "BOB@EXAMPLE.COM") u.
Proof.
  assert (Hnone : forall u, In u (firstn 200 (auth_users uploaded)) ->
             ~ email_matches ascii_lower (JS.str "carol@example.com") u).
  { intros u [<- | [<- | []]] (e & He & Hm); cbn in He;
      injection He as <-; vm_compute in Hm; discriminate Hm. }
  split; [exact Hnone|]. split.
  - apply (proj2 (directory_lookup_sees_200 ascii_lower (at_time 2000)
                    (JS.str "carol@example.com") uploaded)).
    exact Hnone.
  - apply (proj1 (directory_lookup_sees_200 ascii_lower (at_time 2000)
                    (JS.str "BOB@EXAMPLE.COM") uploaded)).
    reflexivity.
Defined.

Lemma listing_is_ordered_on_sample :
  (authenticated as_alice alice /\
   fails (at_time 2000) ListAssets = false) /\
  exists c : Connection,
    myAssets ilike (at_time 2000) (Some 25) (Some 10) (Some (JS.str "F"))
             as_alice (many 30) = (Ok c, many 30) /\
    StronglySorted newer_first (edges c) /\
    forall e : Edge,
      In e (edges c) ->
      (exists r : Asset.row,
         In r (asset (many 30)) /\
         q_filter ilike (Some (JS.str "F")) r = true /\
         node e = node_of r /\ cursor e = Asset.created_at r) /\
      (forall t, Some 25 = Some t -> cursor e < t).
Proof.
  split; [evaluate|].
  apply listing_is_ordered with (uid := alice); evaluate.
Defined.

Lemma following_the_cursor_on_sample :
  (authenticated as_alice alice /\
   fails (at_time 2000) ListAssets = false /\
   fails (at_time 3000) ListAssets = false) /\
  exists c1 : Connection,
    myAssets ilike (at_time 2000) None (Some 10) None as_alice (many 30)
      = (Ok c1, many 30) /\
    (endCursor (pageInfo c1) = None <-> edges c1 = []) /\
    forall t : Z,
      endCursor (pageInfo c1) = Some t ->
      (exists (before : list Edge) (e : Edge),
         edges c1 = before ++ [e] /\ cursor e = t) /\
      (forall e1, In e1 (edges c1) -> t <= cursor e1) /\
      exists c2 : Connection,
        myAssets ilike (at_time 3000) (Some t) (Some 5) None as_alice
                 (many 30) = (Ok c2, many 30) /\
        forall e1 e2 : Edge,
          In e1 (edges c1) -> In e2 (edges c2) ->
          cursor e2 < t /\ cursor e2 < cursor e1.
Proof.
  split; [evaluate|].
  apply following_the_cursor with (uid := alice); evaluate.
Defined.

Lemma blank_q_is_no_filter_on_sample :
  (forall c, In c [32; 9; 160] -> JS.isWhiteSpace c = true) /\
  myAssets ilike (at_time 2000) None (Some 10) (Some [32; 9; 160]) as_alice
           (many 30)
    = myAssets ilike (at_time 2000) None (Some 10) None as_alice (many 30).
Proof.
  assert (Hwhite : forall c, In c [32; 9; 160] -> JS.isWhiteSpace c = true)
    by (intros c [<- | [<- | [<- | []]]]; reflexivity).
  split; [exact Hwhite|].
  apply blank_q_is_no_filter. exact Hwhite.
Defined.

Lemma isMimeAllowed_extends_on_sample :
  isMimeAllowed (JS.str "image/png") = true /\
  isMimeAllowed (JS.str "image/png" ++ JS.str "; charset=binary") = true.
Proof.
  split; [reflexivity|].
  apply isMimeAllowed_extends. reflexivity.
Defined.

Lemma safeFilename_of_a_normalised_name_on_sample :
  fold_fullwidth (replaceSeparators (JS.str "a/b\c.png"))
    = replaceSeparators (JS.str "a/b\c.png") /\
  safeFilename fold_fullwidth (JS.str "a/b\c.png")
    = firstn 200 (replaceSeparators (JS.str "a/b\c.png")) /\
  List.length (safeFilename fold_fullwidth (JS.str "a/b\c.png"))
    = Nat.min 200 (List.length (JS.str "a/b\c.png")) /\
  ~ In 47 (safeFilename fold_fullwidth (JS.str "a/b\c.png")) /\
  ~ In 92 (safeFilename fold_fullwidth (JS.str "a/b\c.png")).
Proof.
  split; [reflexivity|].
  apply (proj2 (safeFilename_of_a_normalised_name fold_fullwidth
                  (JS.str "a/b\c.png"))).
  reflexivity.
Defined.
